(** * pin_extract: public-key pin extraction

    A shallow embedding of [src/pin_extract.py].  The script fetches the leaf
    certificate of a TLS server, re-encodes its public key in the raw form that
    iOS [SecKeyCopyExternalRepresentation] produces, and prints the Base64 of
    the SHA-256 digest of those bytes.

    The script is a thin layer over Python's [base64], [hashlib], [ssl] and
    [socket] modules and over the [cryptography] package.  The parts of those
    libraries the script relies on are modelled here as executable functions
    (Base64, SHA-256, the DER writer behind [public_bytes], the verification
    settings of an [ssl] context); the X.509 parser and the network are taken
    as parameters. *)

From Stdlib Require Import ZArith List Strings.String Strings.Ascii Strings.Byte Bool Lia.
Import ListNotations.

Local Open Scope Z_scope.

(** ** Bytes and text *)

(** Python [bytes]: a sequence of octets. *)
Definition bytes := list byte.

Definition byte_to_Z (b : byte) : Z := Z.of_N (Byte.to_N b).

Definition byte_of_Z (z : Z) : byte :=
  match Byte.of_N (Z.to_N (z mod 256)) with
  | Some b => b
  | None => x00
  end.

Fixpoint string_of_chars (l : list ascii) : string :=
  match l with
  | [] => EmptyString
  | c :: r => String c (string_of_chars r)
  end.

Definition bytes_of_string (s : string) : bytes := list_byte_of_string s.

(** [x.to_bytes(n, "big")]: the [n] low-order octets of [x], most significant
    first. *)
Fixpoint int_to_bytes (n : nat) (x : Z) : bytes :=
  match n with
  | O => []
  | S n' => int_to_bytes n' (x / 256) ++ [byte_of_Z x]
  end.

(** [int.from_bytes(l, "big")] *)
Definition int_from_bytes (l : bytes) : Z :=
  fold_left (fun acc b => acc * 256 + byte_to_Z b) l 0.

(** The octets of a non-negative integer without leading zeros, most
    significant first; none for zero.  The fuel counts octets. *)
Fixpoint octets (fuel : nat) (x : Z) : bytes :=
  match fuel with
  | O => []
  | S fuel' =>
      if x <=? 0 then [] else octets fuel' (x / 256) ++ [byte_of_Z x]
  end.

Definition unsigned_octets (x : Z) : bytes :=
  octets (S (Z.to_nat (Z.log2 x))) x.

Definition nl : string := String (ascii_of_nat 10) EmptyString.

(** ** Exceptions *)

Module Py.

(** An exception object; [str e] is what an f-string prints for it. *)
Record exn := Exception { exn_class : string; str : string }.

Inductive result (A : Type) :=
| Ok (a : A)
| Raise (e : exn).
Arguments Ok {A} a.
Arguments Raise {A} e.

Definition bind {A B} (r : result A) (k : A -> result B) : result B :=
  match r with
  | Ok a => k a
  | Raise e => Raise e
  end.

Definition ValueError (msg : string) : exn := Exception "ValueError" msg.

End Py.

Notation "x <- c ;; k" := (Py.bind c (fun x => k))
  (at level 61, c at next level, right associativity).
Notation "' p <- c ;; k" := (Py.bind c (fun x => let p := x in k))
  (at level 61, p pattern, c at next level, right associativity).

(** ** [base64.b64encode] *)

Module Base64.

Definition alphabet : list ascii :=
  list_ascii_of_string
    "ABCDEFGHIJKLMNOPQRSTUVWXYZabcdefghijklmnopqrstuvwxyz0123456789+/".

Definition pad : ascii := "="%char.

(** The character of a 6-bit group. *)
Definition char_of_sextet (n : Z) : ascii :=
  nth (Z.to_nat n) alphabet pad.

(** Three octets make four characters; a final group of one or two octets
    is completed with [=]. *)
Fixpoint encode_chars (data : bytes) : list ascii :=
  match data with
  | [] => []
  | [a] =>
      let n := byte_to_Z a in
      [char_of_sextet (n / 4); char_of_sextet (n mod 4 * 16); pad; pad]
  | [a; b] =>
      let n := byte_to_Z a * 256 + byte_to_Z b in
      [char_of_sextet (n / 1024); char_of_sextet (n / 16 mod 64);
       char_of_sextet (n mod 16 * 4); pad]
  | a :: b :: c :: rest =>
      let n := byte_to_Z a * 65536 + byte_to_Z b * 256 + byte_to_Z c in
      char_of_sextet (n / 262144) :: char_of_sextet (n / 4096 mod 64)
        :: char_of_sextet (n / 64 mod 64) :: char_of_sextet (n mod 64)
        :: encode_chars rest
  end.

(** [base64.b64encode(data).decode("ascii")] *)
Definition b64encode (data : bytes) : string :=
  string_of_chars (encode_chars data).

(** The inverse reading of the alphabet, used to state that nothing is lost
    by the encoding. *)
Fixpoint index_of (c : ascii) (l : list ascii) (i : Z) : option Z :=
  match l with
  | [] => None
  | d :: r => if Ascii.eqb c d then Some i else index_of c r (i + 1)
  end.

Definition sextet_of_char (c : ascii) : option Z := index_of c alphabet 0.

Fixpoint decode_chars (fuel : nat) (l : list ascii) : option bytes :=
  match fuel with
  | O => match l with [] => Some [] | _ => None end
  | S fuel' =>
      match l with
      | [] => Some []
      | [c0; c1; c2; c3] =>
          match sextet_of_char c0, sextet_of_char c1 with
          | Some s0, Some s1 =>
              if (Ascii.eqb c2 pad && Ascii.eqb c3 pad)%bool then
                if s1 mod 16 =? 0 then Some [byte_of_Z (s0 * 4 + s1 / 16)]
                else None
              else
                match sextet_of_char c2 with
                | Some s2 =>
                    if Ascii.eqb c3 pad then
                      if s2 mod 4 =? 0 then
                        Some [byte_of_Z (s0 * 4 + s1 / 16);
                              byte_of_Z (s1 mod 16 * 16 + s2 / 4)]
                      else None
                    else
                      match sextet_of_char c3 with
                      | Some s3 =>
                          Some [byte_of_Z (s0 * 4 + s1 / 16);
                                byte_of_Z (s1 mod 16 * 16 + s2 / 4);
                                byte_of_Z (s2 mod 4 * 64 + s3)]
                      | None => None
                      end
                | None => None
                end
          | _, _ => None
          end
      | c0 :: c1 :: c2 :: c3 :: rest =>
          match sextet_of_char c0, sextet_of_char c1,
                sextet_of_char c2, sextet_of_char c3,
                decode_chars fuel' rest with
          | Some s0, Some s1, Some s2, Some s3, Some tl =>
              Some (byte_of_Z (s0 * 4 + s1 / 16)
                      :: byte_of_Z (s1 mod 16 * 16 + s2 / 4)
                      :: byte_of_Z (s2 mod 4 * 64 + s3) :: tl)
          | _, _, _, _, _ => None
          end
      | _ => None
      end
  end.

Definition b64decode (s : string) : option bytes :=
  let l := list_ascii_of_string s in
  decode_chars (List.length l) l.

(** Whether a character is one of the sixty-four of the alphabet. *)
Definition in_alphabet (c : ascii) : bool := existsb (Ascii.eqb c) alphabet.

End Base64.

(** ** [hashlib.sha256] *)

Module Hashlib.

Definition wrap32 (x : Z) : Z := x mod 4294967296.

Definition add32 (x y : Z) : Z := wrap32 (x + y).

Definition rotr (n x : Z) : Z :=
  Z.lor (Z.shiftr x n) (wrap32 (Z.shiftl x (32 - n))).

Definition shr (n x : Z) : Z := Z.shiftr x n.

Definition not32 (x : Z) : Z := 4294967295 - x.

Definition Ch (x y z : Z) : Z :=
  Z.lxor (Z.land x y) (Z.land (not32 x) z).

Definition Maj (x y z : Z) : Z :=
  Z.lxor (Z.lxor (Z.land x y) (Z.land x z)) (Z.land y z).

Definition Sigma0 (x : Z) : Z :=
  Z.lxor (Z.lxor (rotr 2 x) (rotr 13 x)) (rotr 22 x).

Definition Sigma1 (x : Z) : Z :=
  Z.lxor (Z.lxor (rotr 6 x) (rotr 11 x)) (rotr 25 x).

Definition sigma0 (x : Z) : Z :=
  Z.lxor (Z.lxor (rotr 7 x) (rotr 18 x)) (shr 3 x).

Definition sigma1 (x : Z) : Z :=
  Z.lxor (Z.lxor (rotr 17 x) (rotr 19 x)) (shr 10 x).

(** The first sixty-four primes. *)
Definition primes : list Z :=
  [2; 3; 5; 7; 11; 13; 17; 19; 23; 29; 31; 37; 41; 43; 47; 53; 59; 61; 67;
   71; 73; 79; 83; 89; 97; 101; 103; 107; 109; 113; 127; 131; 137; 139; 149;
   151; 157; 163; 167; 173; 179; 181; 191; 193; 197; 199; 211; 223; 227; 229;
   233; 239; 241; 251; 257; 263; 269; 271; 277; 281; 283; 293; 307; 311].

(** The integer cube root, found bit by bit from the top. *)
Fixpoint cbrt_bits (n : nat) (x r : Z) : Z :=
  match n with
  | O => r
  | S n' =>
      let r' := r + 2 ^ Z.of_nat n' in
      cbrt_bits n' x (if r' * r' * r' <=? x then r' else r)
  end.

(** The first 32 bits of the fractional part of the square root and of the
    cube root of a prime. *)
Definition frac_sqrt (p : Z) : Z := wrap32 (Z.sqrt (p * 2 ^ 64)).
Definition frac_cbrt (p : Z) : Z := wrap32 (cbrt_bits 40 (p * 2 ^ 96) 0).

(** The round constants. *)
Definition K : list Z := map frac_cbrt primes.

(** The eight working variables. *)
Record state := State {
  ha : Z; hb : Z; hc : Z; hd : Z; he : Z; hf : Z; hg : Z; hh : Z }.

(** The initial hash value, from the first eight primes. *)
Definition H0 : state :=
  State (frac_sqrt 2) (frac_sqrt 3) (frac_sqrt 5) (frac_sqrt 7)
        (frac_sqrt 11) (frac_sqrt 13) (frac_sqrt 17) (frac_sqrt 19).

Definition round (k w : Z) (s : state) : state :=
  let t1 :=
    add32 (add32 (add32 (add32 (hh s) (Sigma1 (he s)))
                        (Ch (he s) (hf s) (hg s))) k) w in
  let t2 := add32 (Sigma0 (ha s)) (Maj (ha s) (hb s) (hc s)) in
  State (add32 t1 t2) (ha s) (hb s) (hc s)
        (add32 (hd s) t1) (he s) (hf s) (hg s).

(** The message schedule is kept as a window of sixteen words: its head is
    the word of the current round. *)
Definition next_word (win : list Z) : Z :=
  add32 (add32 (add32 (sigma1 (nth 14 win 0)) (nth 9 win 0))
               (sigma0 (nth 1 win 0))) (nth 0 win 0).

Fixpoint rounds (ks : list Z) (win : list Z) (s : state) : state :=
  match ks with
  | [] => s
  | k :: ks' =>
      rounds ks' (tl win ++ [next_word win]) (round k (nth 0 win 0) s)
  end.

Fixpoint words_of_bytes (l : bytes) : list Z :=
  match l with
  | a :: b :: c :: d :: rest =>
      (byte_to_Z a * 16777216 + byte_to_Z b * 65536
       + byte_to_Z c * 256 + byte_to_Z d) :: words_of_bytes rest
  | _ => []
  end.

Definition compress (s : state) (block : bytes) : state :=
  let s' := rounds K (words_of_bytes block) s in
  State (add32 (ha s) (ha s')) (add32 (hb s) (hb s'))
        (add32 (hc s) (hc s')) (add32 (hd s) (hd s'))
        (add32 (he s) (he s')) (add32 (hf s) (hf s'))
        (add32 (hg s) (hg s')) (add32 (hh s) (hh s')).

Fixpoint blocks (n : nat) (s : state) (l : bytes) : state :=
  match n with
  | O => s
  | S n' => blocks n' (compress s (firstn 64 l)) (skipn 64 l)
  end.

(** The message, a single 1 bit, zeros up to 56 modulo 64, and the bit
    length on eight octets. *)
Definition padding (data : bytes) : bytes :=
  let len := Z.of_nat (List.length data) in
  let zeros := Z.to_nat ((55 - len) mod 64) in
  data ++ [x80] ++ repeat x00 zeros ++ int_to_bytes 8 (len * 8).

Definition digest_of_state (s : state) : bytes :=
  int_to_bytes 4 (ha s) ++ int_to_bytes 4 (hb s) ++ int_to_bytes 4 (hc s)
    ++ int_to_bytes 4 (hd s) ++ int_to_bytes 4 (he s) ++ int_to_bytes 4 (hf s)
    ++ int_to_bytes 4 (hg s) ++ int_to_bytes 4 (hh s).

(** [hashlib.sha256(data).digest()] *)
Definition sha256 (data : bytes) : bytes :=
  let m := padding data in
  digest_of_state (blocks (List.length m / 64)%nat H0 m).

End Hashlib.

(** ** DER, as written by [public_bytes] *)

Module DER.

(** Definite length: one octet below 128, otherwise the count of length
    octets with the top bit set, then the length. *)
Definition length_octets (n : Z) : bytes :=
  if n <? 128 then [byte_of_Z n]
  else
    let o := unsigned_octets n in
    byte_of_Z (128 + Z.of_nat (List.length o)) :: o.

(** The longest content those length octets can describe. *)
Definition max_length : Z := 256 ^ 126.

Definition tlv (tag : byte) (content : bytes) : bytes :=
  tag :: length_octets (Z.of_nat (List.length content)) ++ content.

Definition tag_INTEGER : byte := x02.
Definition tag_BIT_STRING : byte := x03.
Definition tag_NULL : byte := x05.
Definition tag_OID : byte := x06.
Definition tag_SEQUENCE : byte := x30.

(** Content of a non-negative INTEGER: two's complement, so a zero octet
    comes first when the top bit would otherwise be set. *)
Definition integer_content (x : Z) : bytes :=
  match unsigned_octets x with
  | [] => [x00]
  | b :: r => if 128 <=? byte_to_Z b then x00 :: b :: r else b :: r
  end.

Definition integer (x : Z) : bytes := tlv tag_INTEGER (integer_content x).

Definition sequence (items : list bytes) : bytes :=
  tlv tag_SEQUENCE (List.concat items).

(** A BIT STRING holding whole octets: no unused bits. *)
Definition bit_string (content : bytes) : bytes :=
  tlv tag_BIT_STRING (x00 :: content).

Definition null : bytes := tlv tag_NULL [].

(** One arc of an object identifier in base 128, every octet but the last
    with the top bit set. *)
Fixpoint arc_high (fuel : nat) (x : Z) : bytes :=
  match fuel with
  | O => []
  | S fuel' =>
      if x <=? 0 then []
      else arc_high fuel' (x / 128) ++ [byte_of_Z (128 + x mod 128)]
  end.

Definition arc (x : Z) : bytes :=
  arc_high (S (Z.to_nat (Z.log2 x))) (x / 128) ++ [byte_of_Z (x mod 128)].

Definition oid (arcs : list Z) : bytes :=
  match arcs with
  | a :: b :: rest => tlv tag_OID (arc (40 * a + b) ++ List.concat (map arc rest))
  | _ => tlv tag_OID []
  end.

(** *** Reading back

    A strict reader for the two shapes the statements below need: a
    definite length in its shortest form, and a non-negative INTEGER in its
    shortest form. *)

Definition read_length (l : bytes) : option (Z * bytes) :=
  match l with
  | [] => None
  | b :: r =>
      let n := byte_to_Z b in
      if n <? 128 then Some (n, r)
      else
        let k := Z.to_nat (n - 128) in
        let lo := firstn k r in
        let v := int_from_bytes lo in
        if (List.length lo =? k)%nat
           && negb (k =? 0)%nat
           && (128 <=? v)
           && (0 <? byte_to_Z (hd x00 lo))
        then Some (v, skipn k r) else None
  end.

Definition read_tlv (tag : byte) (l : bytes) : option (bytes * bytes) :=
  match l with
  | [] => None
  | t :: r =>
      if Byte.eqb t tag then
        match read_length r with
        | Some (n, r') =>
            let k := Z.to_nat n in
            if (k <=? List.length r')%nat
            then Some (firstn k r', skipn k r') else None
        | None => None
        end
      else None
  end.

Definition read_integer (l : bytes) : option (Z * bytes) :=
  match read_tlv tag_INTEGER l with
  | Some (c, r) =>
      match c with
      | [] => None
      | [b] => if byte_to_Z b <? 128 then Some (byte_to_Z b, r) else None
      | b0 :: b1 :: _ =>
          if byte_to_Z b0 =? 0 then
            if 128 <=? byte_to_Z b1 then Some (int_from_bytes c, r)
            else None
          else if byte_to_Z b0 <? 128 then Some (int_from_bytes c, r)
          else None
      end
  | None => None
  end.

End DER.

(** ** The [cryptography] package: public keys and [public_bytes] *)

Module Crypto.

(** [pub.curve]: a named curve with its [name], its [key_size] in bits and
    the object identifier written in a SubjectPublicKeyInfo. *)
Record Curve := {
  name : string;
  key_size : Z;
  curve_oid : list Z }.

Definition SECP256R1 : Curve :=
  {| name := "secp256r1"; key_size := 256;
     curve_oid := [1; 2; 840; 10045; 3; 1; 7] |}.
Definition SECP384R1 : Curve :=
  {| name := "secp384r1"; key_size := 384; curve_oid := [1; 3; 132; 0; 34] |}.
Definition SECP521R1 : Curve :=
  {| name := "secp521r1"; key_size := 521; curve_oid := [1; 3; 132; 0; 35] |}.

(** The key objects [cert.public_key()] can return. *)
Inductive PublicKey :=
| RSAKey (n e : Z)
| ECKey (curve : Curve) (x y : Z)
| Ed25519Key (raw : bytes)
| Ed448Key (raw : bytes)
| DSAKey (p q g y : Z)
| X25519Key (raw : bytes)
| X448Key (raw : bytes).

(** The interfaces of [cryptography.hazmat.primitives.asymmetric]. *)
Inductive KeyInterface :=
| RSAPublicKey
| EllipticCurvePublicKey
| Ed25519PublicKey
| Ed448PublicKey
| DSAPublicKey
| X25519PublicKey
| X448PublicKey.

Definition isinstance (pub : PublicKey) (c : KeyInterface) : bool :=
  match pub, c with
  | RSAKey _ _, RSAPublicKey
  | ECKey _ _ _, EllipticCurvePublicKey
  | Ed25519Key _, Ed25519PublicKey
  | Ed448Key _, Ed448PublicKey
  | DSAKey _ _ _ _, DSAPublicKey
  | X25519Key _, X25519PublicKey
  | X448Key _, X448PublicKey => true
  | _, _ => false
  end.

(** [pub.__class__.__name__]: the name of the class of the object, which is
    the backend's class registered under the interface. *)
Definition class_name (pub : PublicKey) : string :=
  match pub with
  | RSAKey _ _ => "RSAPublicKey"
  | ECKey _ _ _ => "ECPublicKey"
  | Ed25519Key _ => "Ed25519PublicKey"
  | Ed448Key _ => "Ed448PublicKey"
  | DSAKey _ _ _ _ => "DSAPublicKey"
  | X25519Key _ => "X25519PublicKey"
  | X448Key _ => "X448PublicKey"
  end.

(** [pub.curve]: only elliptic-curve keys have the attribute. *)
Definition curve_of (pub : PublicKey) : Py.result Curve :=
  match pub with
  | ECKey c _ _ => Py.Ok c
  | _ => Py.Raise (Py.Exception "AttributeError"
                     "object has no attribute 'curve'")
  end.

(** The members of [Encoding] and [PublicFormat] the script names. *)
Module Encoding.
Inductive t := DER | X962 | Raw.
End Encoding.

Module PublicFormat.
Inductive t := SubjectPublicKeyInfo | PKCS1 | UncompressedPoint | Raw.
End PublicFormat.

(** Octets per field element of a curve. *)
Definition field_width (c : Curve) : nat := Z.to_nat ((key_size c + 7) / 8).

(** PKCS#1 [RSAPublicKey ::= SEQUENCE { modulus, publicExponent }] *)
Definition pkcs1_rsa_public_key (n e : Z) : bytes :=
  DER.sequence [DER.integer n; DER.integer e].

(** ANSI X9.63 uncompressed point. *)
Definition uncompressed_point (c : Curve) (x y : Z) : bytes :=
  x04 :: int_to_bytes (field_width c) x ++ int_to_bytes (field_width c) y.

Definition oid_rsaEncryption : list Z := [1; 2; 840; 113549; 1; 1; 1].
Definition oid_ecPublicKey : list Z := [1; 2; 840; 10045; 2; 1].
Definition oid_dsa : list Z := [1; 2; 840; 10040; 4; 1].
Definition oid_X25519 : list Z := [1; 3; 101; 110].
Definition oid_X448 : list Z := [1; 3; 101; 111].
Definition oid_Ed25519 : list Z := [1; 3; 101; 112].
Definition oid_Ed448 : list Z := [1; 3; 101; 113].

(** [AlgorithmIdentifier ::= SEQUENCE { algorithm, parameters }] *)
Definition algorithm_identifier (pub : PublicKey) : bytes :=
  match pub with
  | RSAKey _ _ => DER.sequence [DER.oid oid_rsaEncryption; DER.null]
  | ECKey c _ _ =>
      DER.sequence [DER.oid oid_ecPublicKey; DER.oid (curve_oid c)]
  | Ed25519Key _ => DER.sequence [DER.oid oid_Ed25519]
  | Ed448Key _ => DER.sequence [DER.oid oid_Ed448]
  | DSAKey p q g _ =>
      DER.sequence
        [DER.oid oid_dsa;
         DER.sequence [DER.integer p; DER.integer q; DER.integer g]]
  | X25519Key _ => DER.sequence [DER.oid oid_X25519]
  | X448Key _ => DER.sequence [DER.oid oid_X448]
  end.

(** The octets carried by the BIT STRING of a SubjectPublicKeyInfo. *)
Definition subject_public_key (pub : PublicKey) : bytes :=
  match pub with
  | RSAKey n e => pkcs1_rsa_public_key n e
  | ECKey c x y => uncompressed_point c x y
  | Ed25519Key raw | Ed448Key raw | X25519Key raw | X448Key raw => raw
  | DSAKey _ _ _ y => DER.integer y
  end.

(** [SubjectPublicKeyInfo ::= SEQUENCE { algorithm, subjectPublicKey }] *)
Definition subject_public_key_info (pub : PublicKey) : bytes :=
  DER.sequence
    [algorithm_identifier pub; DER.bit_string (subject_public_key pub)].

Definition unsupported : Py.exn :=
  Py.ValueError "The format and encoding combination is not supported by this key".

(** [pub.public_bytes(encoding, format)] *)
Definition public_bytes (pub : PublicKey) (encoding : Encoding.t)
    (format : PublicFormat.t) : Py.result bytes :=
  match encoding, format with
  | Encoding.DER, PublicFormat.SubjectPublicKeyInfo =>
      Py.Ok (subject_public_key_info pub)
  | Encoding.DER, PublicFormat.PKCS1 =>
      match pub with
      | RSAKey n e => Py.Ok (pkcs1_rsa_public_key n e)
      | _ => Py.Raise unsupported
      end
  | Encoding.X962, PublicFormat.UncompressedPoint =>
      match pub with
      | ECKey c x y => Py.Ok (uncompressed_point c x y)
      | _ => Py.Raise unsupported
      end
  | Encoding.Raw, PublicFormat.Raw =>
      match pub with
      | Ed25519Key raw | Ed448Key raw | X25519Key raw | X448Key raw =>
          Py.Ok raw
      | _ => Py.Raise unsupported
      end
  | _, _ => Py.Raise unsupported
  end.

(** What the library guarantees of a key object it hands out: an RSA modulus
    and exponent are positive and of at most 16384 bits, the coordinates of
    a point are field elements, an Ed25519 key is 32 octets and an Ed448 key
    57. *)
Definition well_formed (pub : PublicKey) : Prop :=
  match pub with
  | RSAKey n e => 0 < n < 2 ^ 16384 /\ 0 < e < 2 ^ 16384
  | ECKey c x y =>
      0 <= x < 256 ^ Z.of_nat (field_width c)
      /\ 0 <= y < 256 ^ Z.of_nat (field_width c)
  | Ed25519Key raw => List.length raw = 32%nat
  | Ed448Key raw => List.length raw = 57%nat
  | DSAKey p q g y => 0 < p /\ 0 < q /\ 0 < g /\ 0 < y
  | X25519Key raw => List.length raw = 32%nat
  | X448Key raw => List.length raw = 56%nat
  end.

End Crypto.

(** ** The [ssl] and [socket] modules *)

Module Ssl.

Inductive VerifyMode := CERT_NONE | CERT_OPTIONAL | CERT_REQUIRED.

Inductive TrustStore := NoCertificates | PlatformDefault.

Record SSLContext := {
  check_hostname : bool;
  verify_mode : VerifyMode;
  trust_store : TrustStore }.

(** [ssl.create_default_context()]: the peer must present a certificate
    that chains to the platform's trust store and matches the host name. *)
Definition create_default_context : SSLContext :=
  {| check_hostname := true;
     verify_mode := CERT_REQUIRED;
     trust_store := PlatformDefault |}.

(** [ssl._create_unverified_context()] *)
Definition _create_unverified_context : SSLContext :=
  {| check_hostname := false;
     verify_mode := CERT_NONE;
     trust_store := NoCertificates |}.

(** A connected socket, described by what the server behind it does in a
    handshake. *)
Record socket := {
  peer_certificate : bytes;
  chains_to_platform_root : bool;
  valid_for_hostname : string -> bool;
  handshake_failure : option Py.exn }.

Definition SSLCertVerificationError (msg : string) : Py.exn :=
  Py.Exception "SSLCertVerificationError" msg.

Definition chain_ok (ctx : SSLContext) (sock : socket) : bool :=
  match trust_store ctx with
  | PlatformDefault => chains_to_platform_root sock
  | NoCertificates => false
  end.

(** [ctx.wrap_socket(sock, server_hostname=host)]: the handshake, then the
    checks the context asks for. *)
Definition wrap_socket (ctx : SSLContext) (sock : socket)
    (server_hostname : string) : Py.result socket :=
  match handshake_failure sock with
  | Some e => Py.Raise e
  | None =>
      match verify_mode ctx with
      | CERT_NONE => Py.Ok sock
      | _ =>
          if negb (chain_ok ctx sock) then
            Py.Raise (SSLCertVerificationError
              "[SSL: CERTIFICATE_VERIFY_FAILED] certificate verify failed")
          else if check_hostname ctx
                  && negb (valid_for_hostname sock server_hostname) then
            Py.Raise (SSLCertVerificationError
              "[SSL: CERTIFICATE_VERIFY_FAILED] certificate verify failed: Hostname mismatch")
          else Py.Ok sock
      end
  end.

(** [ssock.getpeercert(binary_form=True)] *)
Definition getpeercert (ssock : socket) : bytes := peer_certificate ssock.

End Ssl.

(** A Python [float], as mantissa times a power of two. *)
Record pyfloat := Float { mantissa : Z; exponent : Z }.

(** ** The script *)

(** The X.509 parser of [cryptography] and the network are not part of the
    script: [x509.load_der_x509_certificate], [cert.public_key()] and
    [socket.create_connection] are what the platform provides. *)
Class Platform := {
  Certificate : Type;
  load_der_x509_certificate : bytes -> Py.result Certificate;
  public_key : Certificate -> Py.result Crypto.PublicKey;
  create_connection : string -> Z -> pyfloat -> Py.result Ssl.socket }.

Module PinExtract.

Import Py Crypto.
Local Open Scope string_scope.

Section Script.

Context {platform : Platform}.

Definition sha256_b64 (data : bytes) : string :=
  Base64.b64encode (Hashlib.sha256 data).

Definition get_leaf_cert_der (host : string) (port : Z) (timeout : pyfloat)
    (insecure : bool) : result bytes :=
  let ctx :=
    if insecure then Ssl._create_unverified_context
    else Ssl.create_default_context in
  sock <- create_connection host port timeout ;;
  ssock <- Ssl.wrap_socket ctx sock host ;;
  Ok (Ssl.getpeercert ssock).

Definition export_raw_public_key (cert_der : bytes)
    : result (bytes * bytes * string) :=
  cert <- load_der_x509_certificate cert_der ;;
  pub <- public_key cert ;;
  '(raw, ktype) <-
    (if isinstance pub RSAPublicKey then
       raw <- public_bytes pub Encoding.DER PublicFormat.PKCS1 ;;
       Ok (raw, "RSA (PKCS#1 DER)")
     else if isinstance pub EllipticCurvePublicKey then
       raw <- public_bytes pub Encoding.X962
                PublicFormat.UncompressedPoint ;;
       c <- curve_of pub ;;
       Ok (raw, "EC " ++ name c ++ " (X9.63 uncompressed)")
     else if isinstance pub Ed25519PublicKey
             || isinstance pub Ed448PublicKey then
       raw <- public_bytes pub Encoding.Raw PublicFormat.Raw ;;
       Ok (raw, class_name pub ++ " (raw)")
     else
       raw <- public_bytes pub Encoding.DER
                PublicFormat.SubjectPublicKeyInfo ;;
       Ok (raw, "Unknown type → SPKI fallback")) ;;
  spki <- public_bytes pub Encoding.DER PublicFormat.SubjectPublicKeyInfo ;;
  Ok (raw, spki, ktype).

(** The parsed command line. *)
Record Namespace := {
  server : string;
  port : Z;
  timeout : pyfloat;
  insecure : bool;
  print_key : bool }.

(** The options given on the command line next to the server name. *)
Inductive option_arg :=
| OptPort (n : Z)
| OptTimeout (t : pyfloat)
| OptInsecure
| OptPrintKey.

(** The [default] of each [add_argument]; a [store_true] flag is [False]
    unless given. *)
Definition defaults (srv : string) : Namespace :=
  {| server := srv; port := 443; timeout := Float 5 0;
     insecure := false; print_key := false |}.

Definition store (ns : Namespace) (o : option_arg) : Namespace :=
  match o with
  | OptPort n =>
      {| server := server ns; port := n; timeout := timeout ns;
         insecure := insecure ns; print_key := print_key ns |}
  | OptTimeout t =>
      {| server := server ns; port := port ns; timeout := t;
         insecure := insecure ns; print_key := print_key ns |}
  | OptInsecure =>
      {| server := server ns; port := port ns; timeout := timeout ns;
         insecure := true; print_key := print_key ns |}
  | OptPrintKey =>
      {| server := server ns; port := port ns; timeout := timeout ns;
         insecure := insecure ns; print_key := true |}
  end.

Definition parse_args (srv : string) (opts : list option_arg) : Namespace :=
  fold_left store opts (defaults srv).

(** What a run leaves behind. *)
Record Process := {
  stdout : string;
  stderr : string;
  exit_code : Z }.

(** [print(s)] appends [s] and a newline to the stream. *)
Definition print (s : string) (stream : string) : string :=
  stream ++ s ++ nl.

(** The [try] block of [main]. *)
Definition fetch_and_export (args : Namespace)
    : result (bytes * bytes * string) :=
  cert_der <- get_leaf_cert_der (server args) (port args) (timeout args)
                (insecure args) ;;
  export_raw_public_key cert_der.

Definition run (args : Namespace) : Process :=
  match fetch_and_export args with
  | Raise e =>
      {| stdout := "";
         stderr := print ("Error: " ++ str e) "";
         exit_code := 1 |}
  | Ok (raw, spki, ktype) =>
      let out := print ("Key format (raw export): " ++ ktype) "" in
      let out :=
        print ("PIN (RAW key)  SHA256 Base64: " ++ sha256_b64 raw
               ++ "   <-- use this KEY") out in
      let out :=
        if print_key args then
          let out :=
            print (nl ++ "Raw public key (Base64) — sensitive, do not log in prod:")
                  out in
          print (Base64.b64encode raw) out
        else out in
      {| stdout := out; stderr := ""; exit_code := 0 |}
  end.

Definition main (srv : string) (opts : list option_arg) : Process :=
  run (parse_args srv opts).

End Script.

End PinExtract.

(** ** The dispatch in closed form *)

Module Dispatch.

Import Crypto.
Local Open Scope string_scope.

(** The raw bytes and the label the dispatch of [export_raw_public_key]
    computes for a key. *)
Definition raw_of (pub : PublicKey) : bytes :=
  match pub with
  | RSAKey n e => pkcs1_rsa_public_key n e
  | ECKey c x y => uncompressed_point c x y
  | Ed25519Key raw | Ed448Key raw => raw
  | _ => subject_public_key_info pub
  end.

Definition label_of (pub : PublicKey) : string :=
  match pub with
  | RSAKey _ _ => "RSA (PKCS#1 DER)"
  | ECKey c _ _ => "EC " ++ name c ++ " (X9.63 uncompressed)"
  | Ed25519Key _ => "Ed25519PublicKey (raw)"
  | Ed448Key _ => "Ed448PublicKey (raw)"
  | _ => "Unknown type → SPKI fallback"
  end.

(** The rule of the dispatch a key falls under; for an elliptic-curve key
    the rule carries the name of the curve, as the label does. *)
Inductive rule :=
| PKCS1Rule
| X963Rule (curve_name : string)
| Ed25519Rule
| Ed448Rule
| SPKIRule.

Definition rule_of (pub : PublicKey) : rule :=
  match pub with
  | RSAKey _ _ => PKCS1Rule
  | ECKey c _ _ => X963Rule (name c)
  | Ed25519Key _ => Ed25519Rule
  | Ed448Key _ => Ed448Rule
  | _ => SPKIRule
  end.

End Dispatch.

(** ** Reference definitions

    The statements below compare the script with these, which follow the
    specification's wording rather than the code. *)

Module Spec.

Import Crypto.
Local Open Scope string_scope.

(** The label of each key family, as tabulated in the specification. *)
Definition key_type_label (pub : PublicKey) : string :=
  match pub with
  | RSAKey _ _ => "RSA (PKCS#1 DER)"
  | ECKey c _ _ => "EC " ++ name c ++ " (X9.63 uncompressed)"
  | Ed25519Key _ => "Ed25519 (raw)"
  | Ed448Key _ => "Ed448 (raw)"
  | _ => "Unknown type → SPKI fallback"
  end.

(** Octets left-padded with zeros to a width. *)
Definition left_zero_pad (w : nat) (o : bytes) : bytes :=
  (repeat x00 (w - List.length o)%nat ++ o)%list.

(** The shortest big-endian octets of a coordinate. *)
Definition coordinate_octets (x : Z) : bytes := unsigned_octets x.

(** A strict reading of a PKCS#1 [RSAPublicKey]: one SEQUENCE holding two
    INTEGERs and nothing else. *)
Definition read_rsa_public_key (l : bytes) : option (Z * Z) :=
  match DER.read_tlv DER.tag_SEQUENCE l with
  | Some (body, []) =>
      match DER.read_integer body with
      | Some (n, rest) =>
          match DER.read_integer rest with
          | Some (e, []) => Some (n, e)
          | _ => None
          end
      | None => None
      end
  | _ => None
  end.

(** The recognised key families. *)
Definition recognized (pub : PublicKey) : bool :=
  isinstance pub RSAPublicKey || isinstance pub EllipticCurvePublicKey
  || isinstance pub Ed25519PublicKey || isinstance pub Ed448PublicKey.

(** A strict reading of a SubjectPublicKeyInfo: one SEQUENCE holding the
    algorithm identifier, itself a SEQUENCE, then a BIT STRING without unused
    bits, and nothing else.  It gives the content of the algorithm identifier
    and the octets of the bit string. *)
Definition read_subject_public_key_info (l : bytes)
    : option (bytes * bytes) :=
  match DER.read_tlv DER.tag_SEQUENCE l with
  | Some (body, []) =>
      match DER.read_tlv DER.tag_SEQUENCE body with
      | Some (alg, rest) =>
          match DER.read_tlv DER.tag_BIT_STRING rest with
          | Some (x00 :: key, []) => Some (alg, key)
          | _ => None
          end
      | None => None
      end
  | _ => None
  end.

(** The failures of an invocation, by the step that fails: connecting,
    the TLS handshake and its validation, parsing the certificate,
    extracting its key. *)
Inductive failure {platform : Platform} (args : PinExtract.Namespace)
    : Py.exn -> Prop :=
| ConnectionError (e : Py.exn) :
    create_connection (PinExtract.server args) (PinExtract.port args)
      (PinExtract.timeout args) = Py.Raise e ->
    failure args e
| TLSValidationError (sock : Ssl.socket) (e : Py.exn) :
    create_connection (PinExtract.server args) (PinExtract.port args)
      (PinExtract.timeout args) = Py.Ok sock ->
    PinExtract.get_leaf_cert_der (PinExtract.server args)
      (PinExtract.port args) (PinExtract.timeout args)
      (PinExtract.insecure args) = Py.Raise e ->
    failure args e
| CertificateParseError (cert_der : bytes) (e : Py.exn) :
    PinExtract.get_leaf_cert_der (PinExtract.server args)
      (PinExtract.port args) (PinExtract.timeout args)
      (PinExtract.insecure args) = Py.Ok cert_der ->
    load_der_x509_certificate cert_der = Py.Raise e ->
    failure args e
| KeyExtractionError (cert_der : bytes) (cert : Certificate) (e : Py.exn) :
    PinExtract.get_leaf_cert_der (PinExtract.server args)
      (PinExtract.port args) (PinExtract.timeout args)
      (PinExtract.insecure args) = Py.Ok cert_der ->
    load_der_x509_certificate cert_der = Py.Ok cert ->
    public_key cert = Py.Raise e ->
    failure args e.

(** An invocation either fails at one of those steps, or fetches a
    certificate whose key loads. *)
Inductive outcome {platform : Platform} (args : PinExtract.Namespace)
    : option Py.exn -> Prop :=
| Failed (e : Py.exn) : failure args e -> outcome args (Some e)
| Succeeded (cert_der : bytes) (cert : Certificate) (pub : PublicKey) :
    PinExtract.get_leaf_cert_der (PinExtract.server args)
      (PinExtract.port args) (PinExtract.timeout args)
      (PinExtract.insecure args) = Py.Ok cert_der ->
    load_der_x509_certificate cert_der = Py.Ok cert ->
    public_key cert = Py.Ok pub ->
    outcome args None.

End Spec.

(** Text as lines, as [str.splitlines] cuts it at newlines. *)
Definition is_newline (c : ascii) : bool := Ascii.eqb c (ascii_of_nat 10).

Fixpoint splitlines (s : string) : list string :=
  match s with
  | EmptyString => []
  | String c r =>
      if is_newline c then EmptyString :: splitlines r
      else
        match splitlines r with
        | [] => [String c EmptyString]
        | l :: ls => String c l :: ls
        end
  end.

Fixpoint single_line (s : string) : bool :=
  match s with
  | EmptyString => true
  | String c r => negb (is_newline c) && single_line r
  end.

(** ** A platform to run the script on

    A small world used to evaluate the script: a certificate is reduced to
    one octet that selects its key, and a handful of host names stand for
    servers of each kind. *)

Module Fixture.

Import Py Crypto.
Local Open Scope string_scope.

Definition rsa_key : PublicKey := RSAKey 3233 17.

(** The base point of P-256. *)
Definition p256_key : PublicKey :=
  ECKey SECP256R1
    0x6b17d1f2e12c4247f8bce6e563a440f277037d812deb33a0f4a13945d898c296
    0x4fe342e2fe1a7f9b8ee7eb4a7c0f9e162bce33576b315ececbb6406837bf51f5.

Definition ed25519_key : PublicKey := Ed25519Key (repeat x01 32).
Definition ed448_key : PublicKey := Ed448Key (repeat x02 57).
Definition x25519_key : PublicKey := X25519Key (repeat x03 32).

Definition load (der : bytes) : result PublicKey :=
  match der with
  | [x01] => Ok rsa_key
  | [x02] => Ok p256_key
  | [x03] => Ok ed25519_key
  | [x04] => Ok ed448_key
  | [x05] => Ok x25519_key
  | _ => Raise (ValueError "error parsing asn1 value")
  end.

Definition server_with (cert : bytes) (trusted : bool) : Ssl.socket :=
  {| Ssl.peer_certificate := cert;
     Ssl.chains_to_platform_root := trusted;
     Ssl.valid_for_hostname := fun _ => true;
     Ssl.handshake_failure := None |}.

Definition connect (host : string) (port : Z) (timeout : pyfloat)
    : result Ssl.socket :=
  if host =? "rsa.example" then Ok (server_with [x01] true)
  else if host =? "p256.example" then Ok (server_with [x02] true)
  else if host =? "ed25519.example" then Ok (server_with [x03] true)
  else if host =? "ed448.example" then Ok (server_with [x04] true)
  else if host =? "x25519.example" then Ok (server_with [x05] true)
  else if host =? "self-signed.example" then Ok (server_with [x01] false)
  else if host =? "garbage.example" then Ok (server_with [x00; x00] true)
  else Raise (Exception "ConnectionRefusedError"
                "[Errno 111] Connection refused").

Definition platform : Platform :=
  {| Certificate := PublicKey;
     load_der_x509_certificate := load;
     public_key := fun cert => Ok cert;
     create_connection := connect |}.

End Fixture.

(** ** A platform with a key the library cannot load

    A certificate may name an algorithm [cryptography] has no key class for;
    [cert.public_key()] raises for it.  Here a certificate is the algorithm of
    its SubjectPublicKeyInfo and, when the library has a class for it, the
    key. *)

Module Unsupported.

Import Py Crypto.
Local Open Scope string_scope.

Record certificate := {
  algorithm : list Z;
  loaded : option PublicKey }.

(** GOST R 34.10-2012 with a 256-bit key. *)
Definition oid_gost2012_256 : list Z := [1; 2; 643; 7; 1; 1; 1; 1].

Definition UnsupportedAlgorithm (msg : string) : exn :=
  Exception "UnsupportedAlgorithm" msg.

Definition load (der : bytes) : result certificate :=
  match der with
  | [x05] =>
      Ok {| algorithm := oid_X25519; loaded := Some Fixture.x25519_key |}
  | [x09] => Ok {| algorithm := oid_gost2012_256; loaded := None |}
  | _ => Raise (ValueError "error parsing asn1 value")
  end.

Definition key_of (cert : certificate) : result PublicKey :=
  match loaded cert with
  | Some pub => Ok pub
  | None => Raise (UnsupportedAlgorithm "Unknown key type: 1.2.643.7.1.1.1.1")
  end.

Definition connect (host : string) (port : Z) (timeout : pyfloat)
    : result Ssl.socket :=
  if host =? "x25519.example" then Ok (Fixture.server_with [x05] true)
  else if host =? "gost.example" then Ok (Fixture.server_with [x09] true)
  else Raise (Exception "ConnectionRefusedError"
                "[Errno 111] Connection refused").

Definition platform : Platform :=
  {| Certificate := certificate;
     load_der_x509_certificate := load;
     public_key := key_of;
     create_connection := connect |}.

End Unsupported.

(** * Properties *)

(** ** Text *)

Lemma append_assoc (a b c : string) :
  ((a ++ b) ++ c = a ++ (b ++ c))%string.
Proof.
  induction a as [|ch a IH]; simpl; [reflexivity | now rewrite IH].
Qed.

Lemma append_nil_r (a : string) : (a ++ "" = a)%string.
Proof.
  induction a as [|ch a IH]; simpl; [reflexivity | now rewrite IH].
Qed.

Lemma splitlines_one_line (s : string) :
  single_line s = true -> splitlines (s ++ nl) = [s].
Proof.
  induction s as [|c s IH]; simpl; intros Hs.
  - reflexivity.
  - apply andb_true_iff in Hs as [Hc Hs].
    apply negb_true_iff in Hc. rewrite Hc, (IH Hs). reflexivity.
Qed.

(** ** Octets *)

Lemma byte_to_Z_range (b : byte) : 0 <= byte_to_Z b < 256.
Proof.
  unfold byte_to_Z. pose proof (Byte.to_N_bounded b). lia.
Qed.

Lemma byte_of_to_Z (b : byte) : byte_of_Z (byte_to_Z b) = b.
Proof.
  unfold byte_of_Z. pose proof (byte_to_Z_range b) as Hb.
  rewrite Z.mod_small by exact Hb.
  unfold byte_to_Z. rewrite N2Z.id, Byte.of_to_N. reflexivity.
Qed.

Lemma byte_to_of_Z (z : Z) : byte_to_Z (byte_of_Z z) = z mod 256.
Proof.
  unfold byte_of_Z, byte_to_Z.
  pose proof (Z.mod_pos_bound z 256 ltac:(lia)) as Hm.
  destruct (Byte.of_N (Z.to_N (z mod 256))) as [b|] eqn:Hb.
  - apply Byte.to_of_N in Hb. rewrite Hb. lia.
  - apply Byte.of_N_None_iff in Hb. lia.
Qed.

Lemma byte_to_of_Z_small (z : Z) : 0 <= z < 256 -> byte_to_Z (byte_of_Z z) = z.
Proof.
  intros Hz. rewrite byte_to_of_Z. apply Z.mod_small, Hz.
Qed.

(** ** Integers as octets *)

Lemma int_from_bytes_snoc (l : bytes) (b : byte) :
  int_from_bytes (l ++ [b]) = int_from_bytes l * 256 + byte_to_Z b.
Proof.
  unfold int_from_bytes. rewrite fold_left_app. reflexivity.
Qed.

Lemma int_from_bytes_zero_cons (l : bytes) :
  int_from_bytes (x00 :: l) = int_from_bytes l.
Proof. reflexivity. Qed.

Lemma int_to_bytes_length (n : nat) (x : Z) :
  List.length (int_to_bytes n x) = n.
Proof.
  revert x. induction n as [|n IH]; intros x; simpl.
  - reflexivity.
  - rewrite length_app, IH. simpl. lia.
Qed.

Lemma int_to_bytes_zero (n : nat) : int_to_bytes n 0 = repeat x00 n.
Proof.
  induction n as [|n IH].
  - reflexivity.
  - cbn [int_to_bytes]. change (0 / 256) with 0. rewrite IH.
    change ([byte_of_Z 0]) with (repeat x00 1).
    rewrite <- repeat_app. f_equal. apply Nat.add_1_r.
Qed.

Lemma int_from_to_bytes (n : nat) (x : Z) :
  0 <= x < 256 ^ Z.of_nat n -> int_from_bytes (int_to_bytes n x) = x.
Proof.
  revert x. induction n as [|n IH]; intros x Hx.
  - simpl in *. cbn. lia.
  - cbn [int_to_bytes]. rewrite int_from_bytes_snoc, byte_to_of_Z.
    rewrite Nat2Z.inj_succ, Z.pow_succ_r in Hx by lia.
    rewrite IH.
    + pose proof (Z.div_mod x 256 ltac:(lia)). lia.
    + split; [apply Z.div_pos; lia | apply Z.div_lt_upper_bound; lia].
Qed.

Module DERFacts.

Lemma octets_nonpos (f : nat) (x : Z) : x <= 0 -> octets f x = [].
Proof.
  intros Hx. destruct f; simpl; [reflexivity|].
  destruct (x <=? 0) eqn:E; [reflexivity | apply Z.leb_gt in E; lia].
Qed.

Lemma octets_step (f : nat) (x : Z) :
  0 < x -> octets (S f) x = octets f (x / 256) ++ [byte_of_Z x].
Proof.
  intros Hx. simpl.
  destruct (x <=? 0) eqn:E; [apply Z.leb_le in E; lia | reflexivity].
Qed.

Lemma octets_more_fuel (f : nat) (x : Z) :
  x < 256 ^ Z.of_nat f -> octets (S f) x = octets f x.
Proof.
  revert x. induction f as [|f IH]; intros x Hx.
  - change (256 ^ Z.of_nat 0) with 1 in Hx.
    rewrite !octets_nonpos by lia. reflexivity.
  - destruct (Z_le_gt_dec x 0) as [Hle|Hgt].
    + rewrite !octets_nonpos by exact Hle. reflexivity.
    + rewrite (octets_step (S f) x), (octets_step f x) by lia.
      rewrite IH; [reflexivity|].
      rewrite Nat2Z.inj_succ, Z.pow_succ_r in Hx by lia.
      apply Z.div_lt_upper_bound; lia.
Qed.

Lemma octets_fuel (f g : nat) (x : Z) :
  x < 256 ^ Z.of_nat f -> (f <= g)%nat -> octets g x = octets f x.
Proof.
  intros Hx Hfg. induction Hfg as [|g Hfg IH].
  - reflexivity.
  - rewrite octets_more_fuel; [exact IH|].
    apply Z.lt_le_trans with (1 := Hx).
    apply Z.pow_le_mono_r; lia.
Qed.

Lemma log2_fuel (x : Z) : x < 256 ^ Z.of_nat (S (Z.to_nat (Z.log2 x))).
Proof.
  destruct (Z_le_gt_dec x 0) as [Hle|Hgt].
  - apply Z.le_lt_trans with (1 := Hle). apply Z.pow_pos_nonneg; lia.
  - pose proof (Z.log2_nonneg x) as Hl.
    pose proof (Z.log2_spec x ltac:(lia)) as [_ Hs].
    apply Z.lt_le_trans with (1 := Hs).
    rewrite Nat2Z.inj_succ, Z2Nat.id by lia.
    apply Z.le_trans with (256 ^ Z.succ (Z.log2 x)).
    + apply Z.pow_le_mono_l. lia.
    + lia.
Qed.

Lemma unsigned_octets_fuel (f : nat) (x : Z) :
  x < 256 ^ Z.of_nat f -> unsigned_octets x = octets f x.
Proof.
  intros Hx. unfold unsigned_octets.
  destruct (Nat.le_ge_cases f (S (Z.to_nat (Z.log2 x)))) as [H|H].
  - apply octets_fuel; assumption.
  - symmetry. apply octets_fuel; [apply log2_fuel | exact H].
Qed.

Lemma unsigned_octets_nonpos (x : Z) : x <= 0 -> unsigned_octets x = [].
Proof. intros Hx. apply octets_nonpos, Hx. Qed.

Lemma unsigned_octets_step (x : Z) :
  0 < x -> unsigned_octets x = unsigned_octets (x / 256) ++ [byte_of_Z x].
Proof.
  intros Hx.
  rewrite (unsigned_octets_fuel (S (S (Z.to_nat (Z.log2 x))))).
  - rewrite octets_step by exact Hx. f_equal.
    symmetry. apply unsigned_octets_fuel.
    pose proof (log2_fuel x) as Hf.
    apply Z.le_lt_trans with x; [|exact Hf].
    apply Z.div_le_upper_bound; lia.
  - apply Z.lt_le_trans with (1 := log2_fuel x).
    apply Z.pow_le_mono_r; lia.
Qed.

Lemma octets_length (f : nat) (x : Z) : (List.length (octets f x) <= f)%nat.
Proof.
  revert x. induction f as [|f IH]; intros x; simpl; [lia|].
  destruct (x <=? 0); simpl; [lia|].
  rewrite length_app. simpl. specialize (IH (x / 256)). lia.
Qed.

Lemma unsigned_octets_length (f : nat) (x : Z) :
  x < 256 ^ Z.of_nat f -> (List.length (unsigned_octets x) <= f)%nat.
Proof.
  intros Hx. rewrite (unsigned_octets_fuel f) by exact Hx.
  apply octets_length.
Qed.

Lemma int_from_unsigned_octets (x : Z) :
  0 <= x -> int_from_bytes (unsigned_octets x) = x.
Proof.
  intros Hx. unfold unsigned_octets.
  pose proof (log2_fuel x) as Hf. revert Hf.
  generalize (S (Z.to_nat (Z.log2 x))) as f. intros f. revert x Hx.
  induction f as [|f IH]; intros x Hx Hf.
  - simpl in *. cbn. lia.
  - destruct (Z.eq_dec x 0) as [->|Hnz]; [reflexivity|].
    rewrite octets_step by lia.
    rewrite int_from_bytes_snoc, byte_to_of_Z.
    rewrite Nat2Z.inj_succ, Z.pow_succ_r in Hf by lia.
    rewrite IH.
    + pose proof (Z.div_mod x 256 ltac:(lia)). lia.
    + apply Z.div_pos; lia.
    + apply Z.div_lt_upper_bound; lia.
Qed.

(** The first octet is not zero: the encoding is the shortest one. *)
Lemma unsigned_octets_hd (x : Z) :
  0 < x -> 0 < byte_to_Z (hd x00 (unsigned_octets x)).
Proof.
  intros Hx. unfold unsigned_octets.
  pose proof (log2_fuel x) as Hf. revert Hf.
  generalize (S (Z.to_nat (Z.log2 x))) as f. intros f. revert x Hx.
  induction f as [|f IH]; intros x Hx Hf.
  - simpl in Hf. lia.
  - rewrite octets_step by lia.
    rewrite Nat2Z.inj_succ, Z.pow_succ_r in Hf by lia.
    destruct (Z.eq_dec (x / 256) 0) as [Hz|Hnz].
    + rewrite Hz, octets_nonpos by lia. simpl.
      rewrite byte_to_of_Z.
      pose proof (Z.div_mod x 256 ltac:(lia)).
      pose proof (Z.mod_pos_bound x 256 ltac:(lia)). lia.
    + assert (Hq : 0 < x / 256).
      { pose proof (Z.div_pos x 256 ltac:(lia) ltac:(lia)). lia. }
      specialize (IH (x / 256) Hq
                     ltac:(apply Z.div_lt_upper_bound; lia)).
      destruct (octets f (x / 256)) as [|b l];
        [vm_compute in IH; discriminate | exact IH].
Qed.

Lemma unsigned_octets_nonempty (x : Z) : 0 < x -> unsigned_octets x <> [].
Proof.
  intros Hx Hnil. pose proof (unsigned_octets_hd x Hx) as H.
  rewrite Hnil in H. vm_compute in H. discriminate.
Qed.

(** Fixed-width octets are the shortest octets padded on the left. *)
Lemma int_to_bytes_left_zero_pad (w : nat) (x : Z) :
  0 <= x < 256 ^ Z.of_nat w ->
  int_to_bytes w x = Spec.left_zero_pad w (unsigned_octets x).
Proof.
  revert x. induction w as [|w IH]; intros x Hx.
  - simpl in Hx. assert (x = 0) by lia. subst x. reflexivity.
  - destruct (Z.eq_dec x 0) as [->|Hnz].
    + rewrite int_to_bytes_zero. unfold Spec.left_zero_pad.
      rewrite unsigned_octets_nonpos by lia. simpl List.length.
      rewrite Nat.sub_0_r, app_nil_r. reflexivity.
    + cbn [int_to_bytes].
      rewrite Nat2Z.inj_succ, Z.pow_succ_r in Hx by lia.
      rewrite IH.
      * rewrite (unsigned_octets_step x) by lia.
        unfold Spec.left_zero_pad. rewrite length_app. simpl List.length.
        rewrite <- app_assoc. f_equal. f_equal. lia.
      * split; [apply Z.div_pos; lia | apply Z.div_lt_upper_bound; lia].
Qed.

End DERFacts.

(** ** Reading DER back *)

Module DERRead.
Import DER DERFacts.

Lemma firstn_exact {A} (l r : list A) : firstn (List.length l) (l ++ r) = l.
Proof.
  rewrite firstn_app, Nat.sub_diag, firstn_all. simpl. apply app_nil_r.
Qed.

Lemma skipn_exact {A} (l r : list A) : skipn (List.length l) (l ++ r) = r.
Proof.
  rewrite skipn_app, Nat.sub_diag, skipn_all. reflexivity.
Qed.

Lemma length_octets_length (n : Z) :
  0 <= n < max_length -> (List.length (length_octets n) <= 127)%nat.
Proof.
  intros Hn. unfold length_octets.
  destruct (n <? 128); simpl; [lia|].
  pose proof (unsigned_octets_length 126 n ltac:(apply Hn)). lia.
Qed.

Lemma read_length_octets (n : Z) (r : bytes) :
  0 <= n < max_length ->
  read_length (length_octets n ++ r) = Some (n, r).
Proof.
  intros Hn. unfold length_octets.
  destruct (n <? 128) eqn:Hshort.
  - apply Z.ltb_lt in Hshort. simpl.
    rewrite byte_to_of_Z_small by lia.
    apply Z.ltb_lt in Hshort. rewrite Hshort. reflexivity.
  - apply Z.ltb_ge in Hshort.
    pose proof (unsigned_octets_length 126 n ltac:(apply Hn)) as Hlen.
    pose proof (unsigned_octets_hd n ltac:(lia)) as Hhd.
    pose proof (int_from_unsigned_octets n ltac:(lia)) as Hval.
    pose proof (unsigned_octets_nonempty n ltac:(lia)) as Hne.
    set (o := unsigned_octets n) in *.
    cbn [app read_length].
    rewrite byte_to_of_Z_small by lia.
    assert (Hk : Z.to_nat (128 + Z.of_nat (List.length o) - 128)
                 = List.length o) by lia.
    rewrite Hk.
    destruct (128 + Z.of_nat (List.length o) <? 128) eqn:E;
      [apply Z.ltb_lt in E; lia|].
    rewrite firstn_exact, skipn_exact, Nat.eqb_refl, Hval.
    destruct o as [|b o']; [congruence|].
    simpl hd in *. cbn [List.length Nat.eqb negb andb].
    apply Z.leb_le in Hshort. rewrite Hshort.
    apply Z.ltb_lt in Hhd. rewrite Hhd. reflexivity.
Qed.

Lemma read_tlv_tlv (tag : byte) (c r : bytes) :
  Z.of_nat (List.length c) < max_length ->
  read_tlv tag (tlv tag c ++ r) = Some (c, r).
Proof.
  intros Hc. unfold tlv. cbn [app read_tlv].
  rewrite (Byte.byte_dec_lb (eq_refl tag)), <- app_assoc.
  rewrite read_length_octets by lia.
  rewrite Nat2Z.id, firstn_exact, skipn_exact.
  rewrite length_app.
  destruct (List.length c <=? List.length c + List.length r)%nat eqn:E;
    [reflexivity | apply Nat.leb_gt in E; lia].
Qed.

Lemma tlv_length (tag : byte) (c : bytes) :
  Z.of_nat (List.length c) < max_length ->
  (List.length (tlv tag c) <= 128 + List.length c)%nat.
Proof.
  intros Hc. unfold tlv. cbn [List.length]. rewrite length_app.
  pose proof (length_octets_length (Z.of_nat (List.length c))
                ltac:(lia)). lia.
Qed.

Lemma integer_content_length (x : Z) :
  (List.length (integer_content x)
   <= 1 + List.length (unsigned_octets x))%nat.
Proof.
  unfold integer_content.
  destruct (unsigned_octets x) as [|b o]; simpl; [lia|].
  destruct (128 <=? byte_to_Z b); simpl; lia.
Qed.

(** A strict reader gets back the integer that was written. *)
Lemma read_integer_integer (x : Z) (r : bytes) :
  0 <= x ->
  Z.of_nat (List.length (integer_content x)) < max_length ->
  read_integer (integer x ++ r) = Some (x, r).
Proof.
  intros Hx Hlen. unfold read_integer, integer.
  rewrite read_tlv_tlv by exact Hlen.
  pose proof (int_from_unsigned_octets x Hx) as Hval.
  unfold integer_content.
  destruct (unsigned_octets x) as [|b o] eqn:Ho.
  - change (byte_to_Z x00 <? 128) with true. cbv iota.
    change (byte_to_Z x00) with 0. cbn in Hval. congruence.
  - assert (Hpos : 0 < x).
    { destruct (Z.eq_dec x 0) as [->|]; [|lia].
      rewrite unsigned_octets_nonpos in Ho by lia. discriminate. }
    pose proof (unsigned_octets_hd x Hpos) as Hhd.
    rewrite Ho in Hhd. simpl hd in Hhd.
    destruct (128 <=? byte_to_Z b) eqn:Htop.
    + change (byte_to_Z x00 =? 0) with true. cbv iota.
      rewrite Htop, int_from_bytes_zero_cons, Hval. reflexivity.
    + apply Z.leb_gt in Htop.
      destruct o as [|b1 o].
      * apply Z.ltb_lt in Htop. rewrite Htop.
        cbn in Hval. rewrite Hval. reflexivity.
      * destruct (byte_to_Z b =? 0) eqn:Ez;
          [apply Z.eqb_eq in Ez; lia|].
        apply Z.ltb_lt in Htop. rewrite Htop, Hval. reflexivity.
Qed.

End DERRead.

Module RSAFacts.
Import DER DERFacts DERRead Crypto.

Lemma max_length_large : 100000 < max_length.
Proof. reflexivity. Qed.

Lemma rsa_integer_fits (x : Z) :
  x < 2 ^ 16384 ->
  (List.length (integer_content x) <= 2049)%nat.
Proof.
  intros Hx.
  pose proof (integer_content_length x) as Hc.
  pose proof (unsigned_octets_length 2048 x) as Hu.
  assert (Hpow : 2 ^ 16384 = 256 ^ Z.of_nat 2048).
  { change 256 with (2 ^ 8). rewrite <- Z.pow_mul_r by lia. reflexivity. }
  rewrite <- Hpow in Hu. specialize (Hu Hx). lia.
Qed.

Lemma read_written_rsa_public_key (n e : Z) :
  0 < n < 2 ^ 16384 -> 0 < e < 2 ^ 16384 ->
  Spec.read_rsa_public_key (pkcs1_rsa_public_key n e) = Some (n, e).
Proof.
  intros [Hn0 Hn] [He0 He].
  pose proof (rsa_integer_fits n Hn) as Ln.
  pose proof (rsa_integer_fits e He) as Le.
  pose proof max_length_large as Hmax.
  assert (Ln' : Z.of_nat (List.length (integer_content n)) < max_length) by lia.
  assert (Le' : Z.of_nat (List.length (integer_content e)) < max_length) by lia.
  pose proof (tlv_length tag_INTEGER _ Ln') as Tn.
  pose proof (tlv_length tag_INTEGER _ Le') as Te.
  unfold Spec.read_rsa_public_key, pkcs1_rsa_public_key, sequence.
  cbn [List.concat].
  rewrite <- (app_nil_r (tlv tag_SEQUENCE _)).
  rewrite read_tlv_tlv.
  - rewrite read_integer_integer by (assumption || lia).
    rewrite read_integer_integer by (assumption || lia).
    reflexivity.
  - rewrite !length_app. unfold integer.
    change (List.length (@nil byte)) with 0%nat. lia.
Qed.

End RSAFacts.

Module Base64Facts.
Import Base64.

Lemma sextet_of_char_of_sextet (n : Z) :
  0 <= n < 64 -> sextet_of_char (char_of_sextet n) = Some n.
Proof.
  intros Hn.
  assert (exists k, (k < 64)%nat /\ n = Z.of_nat k) as (k & Hk & ->)
    by (exists (Z.to_nat n); lia).
  clear Hn. do 64 (destruct k as [|k]; [reflexivity|]). lia.
Qed.

Lemma char_of_sextet_not_pad (n : Z) :
  0 <= n < 64 -> Ascii.eqb (char_of_sextet n) pad = false.
Proof.
  intros Hn.
  assert (exists k, (k < 64)%nat /\ n = Z.of_nat k) as (k & Hk & ->)
    by (exists (Z.to_nat n); lia).
  clear Hn. do 64 (destruct k as [|k]; [reflexivity|]). lia.
Qed.

Lemma decode_encode_chars (data : bytes) (fuel : nat) :
  (List.length data <= fuel)%nat ->
  decode_chars fuel (encode_chars data) = Some data.
Proof.
  revert data. induction fuel as [fuel IH] using (well_founded_induction lt_wf).
  intros data Hd.
  destruct data as [|a [|b [|c rest]]].
  - destruct fuel; reflexivity.
  - destruct fuel as [|fuel]; [simpl in Hd; lia|].
    pose proof (byte_to_Z_range a) as Ha.
    cbn [encode_chars decode_chars].
    rewrite !sextet_of_char_of_sextet by (Z.div_mod_to_equations; lia).
    change (Ascii.eqb pad pad) with true. cbn [andb].
    replace (byte_to_Z a mod 4 * 16 mod 16 =? 0) with true
      by (symmetry; apply Z.eqb_eq; Z.div_mod_to_equations; lia).
    replace (byte_to_Z a / 4 * 4 + byte_to_Z a mod 4 * 16 / 16)
      with (byte_to_Z a) by (Z.div_mod_to_equations; lia).
    rewrite byte_of_to_Z. reflexivity.
  - destruct fuel as [|fuel]; [simpl in Hd; lia|].
    pose proof (byte_to_Z_range a) as Ha.
    pose proof (byte_to_Z_range b) as Hb.
    cbn [encode_chars decode_chars].
    set (n := byte_to_Z a * 256 + byte_to_Z b).
    rewrite !sextet_of_char_of_sextet
      by (subst n; Z.div_mod_to_equations; lia).
    rewrite char_of_sextet_not_pad by (subst n; Z.div_mod_to_equations; lia).
    change (Ascii.eqb pad pad) with true. cbn [andb].
    replace (n mod 16 * 4 mod 4 =? 0) with true
      by (symmetry; apply Z.eqb_eq; Z.div_mod_to_equations; lia).
    replace (n / 1024 * 4 + n / 16 mod 64 / 16) with (byte_to_Z a)
      by (subst n; Z.div_mod_to_equations; lia).
    replace (n / 16 mod 64 mod 16 * 16 + n mod 16 * 4 / 4) with (byte_to_Z b)
      by (subst n; Z.div_mod_to_equations; lia).
    rewrite !byte_of_to_Z. reflexivity.
  - destruct fuel as [|fuel]; [simpl in Hd; lia|].
    pose proof (byte_to_Z_range a) as Ha.
    pose proof (byte_to_Z_range b) as Hb.
    pose proof (byte_to_Z_range c) as Hc.
    cbn [encode_chars].
    set (n := byte_to_Z a * 65536 + byte_to_Z b * 256 + byte_to_Z c).
    assert (E0 : sextet_of_char (char_of_sextet (n / 262144)) = Some (n / 262144))
      by (apply sextet_of_char_of_sextet; subst n; Z.div_mod_to_equations; lia).
    assert (E1 : sextet_of_char (char_of_sextet (n / 4096 mod 64)) = Some (n / 4096 mod 64))
      by (apply sextet_of_char_of_sextet; Z.div_mod_to_equations; lia).
    assert (E2 : sextet_of_char (char_of_sextet (n / 64 mod 64)) = Some (n / 64 mod 64))
      by (apply sextet_of_char_of_sextet; Z.div_mod_to_equations; lia).
    assert (E3 : sextet_of_char (char_of_sextet (n mod 64)) = Some (n mod 64))
      by (apply sextet_of_char_of_sextet; Z.div_mod_to_equations; lia).
    assert (P2 : Ascii.eqb (char_of_sextet (n / 64 mod 64)) pad = false)
      by (apply char_of_sextet_not_pad; Z.div_mod_to_equations; lia).
    assert (P3 : Ascii.eqb (char_of_sextet (n mod 64)) pad = false)
      by (apply char_of_sextet_not_pad; Z.div_mod_to_equations; lia).
    assert (Da : n / 262144 * 4 + n / 4096 mod 64 / 16 = byte_to_Z a)
      by (subst n; Z.div_mod_to_equations; lia).
    assert (Db : n / 4096 mod 64 mod 16 * 16 + n / 64 mod 64 / 4 = byte_to_Z b)
      by (subst n; Z.div_mod_to_equations; lia).
    assert (Dc : n / 64 mod 64 mod 4 * 64 + n mod 64 = byte_to_Z c)
      by (subst n; Z.div_mod_to_equations; lia).
    clearbody n.
    assert (IHrest : decode_chars fuel (encode_chars rest) = Some rest)
      by (apply IH; simpl in Hd; lia).
    cbn [decode_chars].
    destruct (encode_chars rest) as [|r0 rs] eqn:Hrest.
    + rewrite E0, E1, E2, E3, P2, P3. cbn [andb].
      rewrite Da, Db, Dc, !byte_of_to_Z.
      destruct rest as [|? [|? [|? ?]]]; try discriminate Hrest. reflexivity.
    + rewrite E0, E1, E2, E3, IHrest, Da, Db, Dc, !byte_of_to_Z. reflexivity.
Qed.

Lemma list_ascii_of_string_of_chars (l : list ascii) :
  list_ascii_of_string (string_of_chars l) = l.
Proof.
  induction l as [|c l IH]; simpl; [reflexivity | now rewrite IH].
Qed.

(** Decoding the encoded text gives the octets back: nothing is cut off or
    added. *)
Lemma b64decode_b64encode (data : bytes) :
  b64decode (b64encode data) = Some data.
Proof.
  unfold b64decode, b64encode. rewrite list_ascii_of_string_of_chars.
  apply decode_encode_chars.
  (* four characters for at most three octets *)
  induction data as [data IH] using (well_founded_induction
    (Wf_nat.well_founded_ltof _ (@List.length byte))).
  destruct data as [|a [|b [|c rest]]]; simpl; try lia.
  specialize (IH rest ltac:(unfold Wf_nat.ltof; simpl; lia)). lia.
Qed.

End Base64Facts.

(** ** Reading a SubjectPublicKeyInfo back *)

Module SPKIRead.

Import DER DERRead Crypto.

Lemma tlv_content_length (tag : byte) (c : bytes) :
  (List.length c <= List.length (tlv tag c))%nat.
Proof.
  unfold tlv. cbn [List.length]. rewrite length_app. lia.
Qed.

Lemma algorithm_identifier_is_sequence (pub : PublicKey) :
  exists alg, algorithm_identifier pub = tlv tag_SEQUENCE alg.
Proof.
  destruct pub; eexists; reflexivity.
Qed.

(** A strict reader finds in a SubjectPublicKeyInfo the algorithm identifier
    and the key octets that were written. *)
Lemma read_written_subject_public_key_info (pub : PublicKey) (alg : bytes) :
  algorithm_identifier pub = tlv tag_SEQUENCE alg ->
  Z.of_nat (List.length (subject_public_key_info pub)) < max_length ->
  Spec.read_subject_public_key_info (subject_public_key_info pub)
  = Some (alg, subject_public_key pub).
Proof.
  intros Halg Hlen.
  unfold Spec.read_subject_public_key_info.
  unfold subject_public_key_info, sequence in *. cbn [List.concat] in *.
  rewrite Halg in *.
  set (key := subject_public_key pub) in *.
  set (body := (tlv tag_SEQUENCE alg ++ bit_string key ++ [])%list) in *.
  pose proof (tlv_content_length tag_SEQUENCE body) as Hbody.
  assert (Hb : (List.length alg + List.length (x00 :: key)
                <= List.length body)%nat).
  { subst body. rewrite !length_app. unfold bit_string.
    pose proof (tlv_content_length tag_SEQUENCE alg).
    pose proof (tlv_content_length tag_BIT_STRING (x00 :: key)). lia. }
  rewrite <- (app_nil_r (tlv tag_SEQUENCE body)).
  rewrite read_tlv_tlv by lia.
  subst body. rewrite read_tlv_tlv by lia.
  unfold bit_string. rewrite read_tlv_tlv by lia.
  reflexivity.
Qed.

End SPKIRead.

(** ** The key canonicalizer *)

Module ExportFacts.

Import Py Crypto PinExtract Dispatch.
Local Open Scope string_scope.

Section WithPlatform.

Context {platform : Platform}.

(** Once the certificate parses and its key loads, nothing in the
    dispatch raises. *)
Lemma export_of_key (cert_der : bytes) (cert : Certificate)
    (pub : PublicKey) :
  load_der_x509_certificate cert_der = Ok cert ->
  public_key cert = Ok pub ->
  export_raw_public_key cert_der
  = Ok (raw_of pub, subject_public_key_info pub, label_of pub).
Proof.
  intros Hload Hkey. unfold export_raw_public_key.
  rewrite Hload. simpl. rewrite Hkey. simpl.
  destruct pub; reflexivity.
Qed.

Lemma export_inversion (cert_der raw spki : bytes) (ktype : string) :
  export_raw_public_key cert_der = Ok (raw, spki, ktype) ->
  exists cert pub,
    load_der_x509_certificate cert_der = Ok cert
    /\ public_key cert = Ok pub
    /\ raw = raw_of pub
    /\ spki = subject_public_key_info pub
    /\ ktype = label_of pub.
Proof.
  intros Hexp.
  destruct (load_der_x509_certificate cert_der) as [cert|e] eqn:Hload.
  - destruct (public_key cert) as [pub|e] eqn:Hkey.
    + rewrite (export_of_key _ _ _ Hload Hkey) in Hexp.
      inversion Hexp; subst. exists cert, pub. repeat split; assumption.
    + unfold export_raw_public_key in Hexp.
      rewrite Hload in Hexp. simpl in Hexp. rewrite Hkey in Hexp.
      discriminate.
  - unfold export_raw_public_key in Hexp. rewrite Hload in Hexp.
    discriminate.
Qed.

End WithPlatform.

End ExportFacts.

(** ** The command line *)

Module ArgFacts.

Import PinExtract.

Lemma server_fold (opts : list option_arg) (ns : Namespace) :
  server (fold_left store opts ns) = server ns.
Proof.
  revert ns. induction opts as [|o opts IH]; intros ns; simpl.
  - reflexivity.
  - rewrite IH. destruct o; reflexivity.
Qed.

Lemma insecure_fold (opts : list option_arg) (ns : Namespace) :
  insecure (fold_left store opts ns) = true
  <-> insecure ns = true \/ In OptInsecure opts.
Proof.
  revert ns. induction opts as [|o opts IH]; intros ns; simpl.
  - tauto.
  - rewrite IH. destruct o; simpl; intuition (discriminate || auto).
Qed.

Lemma print_key_fold (opts : list option_arg) (ns : Namespace) :
  print_key (fold_left store opts ns) = true
  <-> print_key ns = true \/ In OptPrintKey opts.
Proof.
  revert ns. induction opts as [|o opts IH]; intros ns; simpl.
  - tauto.
  - rewrite IH. destruct o; simpl; intuition (discriminate || auto).
Qed.

Lemma server_parse_args (srv : string) (opts : list option_arg) :
  server (parse_args srv opts) = srv.
Proof. unfold parse_args. rewrite server_fold. reflexivity. Qed.

(** [--insecure] is off unless given. *)
Lemma insecure_parse_args (srv : string) (opts : list option_arg) :
  insecure (parse_args srv opts) = true <-> In OptInsecure opts.
Proof.
  unfold parse_args. rewrite insecure_fold. simpl.
  intuition discriminate.
Qed.

Lemma print_key_parse_args (srv : string) (opts : list option_arg) :
  print_key (parse_args srv opts) = true <-> In OptPrintKey opts.
Proof.
  unfold parse_args. rewrite print_key_fold. simpl.
  intuition discriminate.
Qed.

End ArgFacts.

Module RunFacts.

Import Py Crypto PinExtract.
Local Open Scope string_scope.

Section WithPlatform.

Context {platform : Platform}.

Lemma run_failure (args : Namespace) (e : exn) :
  fetch_and_export args = Raise e ->
  run args = {| stdout := "";
                stderr := "Error: " ++ str e ++ nl;
                exit_code := 1 |}.
Proof.
  intros H. unfold run. rewrite H. reflexivity.
Qed.

Lemma run_success (args : Namespace) (raw spki : bytes) (ktype : string) :
  fetch_and_export args = Ok (raw, spki, ktype) ->
  run args =
  {| stdout :=
       "Key format (raw export): " ++ ktype ++ nl
       ++ "PIN (RAW key)  SHA256 Base64: "
       ++ Base64.b64encode (Hashlib.sha256 raw)
       ++ "   <-- use this KEY" ++ nl
       ++ (if print_key args then
             nl ++ "Raw public key (Base64) — sensitive, do not log in prod:"
             ++ nl ++ Base64.b64encode raw ++ nl
           else "");
     stderr := "";
     exit_code := 0 |}.
Proof.
  intros H. unfold run. rewrite H. f_equal.
  unfold print, sha256_b64. cbn [append].
  destruct (print_key args);
    repeat (rewrite !append_assoc; cbn [append]);
    rewrite ?append_nil_r; reflexivity.
Qed.

Lemma fetch_and_export_of_steps (args : Namespace) (cert_der : bytes)
    (r : result (bytes * bytes * string)) :
  get_leaf_cert_der (server args) (port args) (timeout args)
    (insecure args) = Ok cert_der ->
  export_raw_public_key cert_der = r ->
  fetch_and_export args = r.
Proof.
  intros Hget Hexp. unfold fetch_and_export. rewrite Hget. exact Hexp.
Qed.

Lemma export_parse_failure (cert_der : bytes) (e : exn) :
  load_der_x509_certificate cert_der = Raise e ->
  export_raw_public_key cert_der = Raise e.
Proof.
  intros H. unfold export_raw_public_key. rewrite H. reflexivity.
Qed.

Lemma export_key_failure (cert_der : bytes) (cert : Certificate)
    (e : exn) :
  load_der_x509_certificate cert_der = Ok cert ->
  public_key cert = Raise e ->
  export_raw_public_key cert_der = Raise e.
Proof.
  intros H1 H2. unfold export_raw_public_key.
  rewrite H1. simpl. rewrite H2. reflexivity.
Qed.

Lemma failure_raises (args : Namespace) (e : exn) :
  Spec.failure args e -> fetch_and_export args = Raise e.
Proof.
  intros [e' Hc | sock e' Hc Hg | der e' Hg Hl | der cert e' Hg Hl Hk].
  - unfold fetch_and_export, get_leaf_cert_der. rewrite Hc. reflexivity.
  - unfold fetch_and_export. rewrite Hg. reflexivity.
  - apply (fetch_and_export_of_steps _ _ _ Hg).
    apply export_parse_failure, Hl.
  - apply (fetch_and_export_of_steps _ _ _ Hg).
    apply (export_key_failure _ _ _ Hl Hk).
Qed.

End WithPlatform.

End RunFacts.

Lemma sha256_length (data : bytes) :
  List.length (Hashlib.sha256 data) = 32%nat.
Proof.
  unfold Hashlib.sha256, Hashlib.digest_of_state.
  rewrite !length_app, !int_to_bytes_length. reflexivity.
Qed.

(** * The claims *)

Section Claims.

Import Py Crypto PinExtract Dispatch ExportFacts RunFacts ArgFacts.
Local Open Scope string_scope.

Context {platform : Platform}.

(** C1.  When the certificate is fetched and canonicalized, the pin printed
    on the second line of the output is the Base64 text of the SHA-256
    digest of the raw key bytes, the first component returned by
    [export_raw_public_key]; the SPKI bytes do not enter it.  The digest is
    32 octets and the text decodes back to it. *)
Theorem pin_is_base64_of_sha256_of_raw_key (args : Namespace)
    (cert_der raw spki : bytes) (ktype : string) :
  get_leaf_cert_der (server args) (port args) (timeout args) (insecure args)
  = Ok cert_der ->
  export_raw_public_key cert_der = Ok (raw, spki, ktype) ->
  let pin := Base64.b64encode (Hashlib.sha256 raw) in
  (exists rest,
     stdout (run args)
     = "Key format (raw export): " ++ ktype ++ nl
       ++ "PIN (RAW key)  SHA256 Base64: " ++ pin ++ "   <-- use this KEY"
       ++ nl ++ rest)
  /\ List.length (Hashlib.sha256 raw) = 32%nat
  /\ Base64.b64decode pin = Some (Hashlib.sha256 raw).
Proof.
  intros Hget Hexp pin. split; [|split].
  - rewrite (run_success args raw spki ktype
               (fetch_and_export_of_steps _ _ _ Hget Hexp)).
    eexists. reflexivity.
  - apply sha256_length.
  - apply Base64Facts.b64decode_b64encode.
Qed.

(** C2.  For a certificate with an RSA key, the raw key bytes are the DER
    encoding of the PKCS#1 [RSAPublicKey] of its modulus and exponent: a
    strict DER reader finds in them one SEQUENCE of exactly these two
    INTEGERs, with no algorithm identifier around it. *)
Theorem rsa_raw_key_is_pkcs1_der (cert_der : bytes) (cert : Certificate)
    (n e : Z) :
  load_der_x509_certificate cert_der = Ok cert ->
  public_key cert = Ok (RSAKey n e) ->
  well_formed (RSAKey n e) ->
  exists raw spki ktype,
    export_raw_public_key cert_der = Ok (raw, spki, ktype)
    /\ raw = DER.sequence [DER.integer n; DER.integer e]
    /\ Spec.read_rsa_public_key raw = Some (n, e).
Proof.
  intros Hload Hkey [Hn He].
  exists (pkcs1_rsa_public_key n e), (subject_public_key_info (RSAKey n e)),
         "RSA (PKCS#1 DER)".
  split; [|split].
  - apply (export_of_key _ _ _ Hload Hkey).
  - reflexivity.
  - apply RSAFacts.read_written_rsa_public_key; assumption.
Qed.

(** C3.  For a certificate with an elliptic-curve key on a curve whose field
    elements take W octets, the raw key bytes are 1 + 2W octets: 0x04, then
    the X coordinate and the Y coordinate, each left-padded with zeros to W
    octets, so that either half read as a big-endian number is the
    coordinate. *)
Theorem ec_raw_key_is_uncompressed_point (cert_der : bytes)
    (cert : Certificate) (c : Curve) (x y : Z) :
  load_der_x509_certificate cert_der = Ok cert ->
  public_key cert = Ok (ECKey c x y) ->
  well_formed (ECKey c x y) ->
  let W := field_width c in
  exists raw spki ktype,
    export_raw_public_key cert_der = Ok (raw, spki, ktype)
    /\ List.length raw = (1 + 2 * W)%nat
    /\ firstn 1 raw = [x04]
    /\ firstn W (skipn 1 raw)
       = Spec.left_zero_pad W (Spec.coordinate_octets x)
    /\ skipn (1 + W) raw
       = Spec.left_zero_pad W (Spec.coordinate_octets y)
    /\ int_from_bytes (firstn W (skipn 1 raw)) = x
    /\ int_from_bytes (skipn (1 + W) raw) = y.
Proof.
  intros Hload Hkey [Hx Hy] W.
  exists (uncompressed_point c x y), (subject_public_key_info (ECKey c x y)),
         ("EC " ++ name c ++ " (X9.63 uncompressed)").
  split; [apply (export_of_key _ _ _ Hload Hkey)|].
  unfold uncompressed_point, Spec.coordinate_octets. fold W.
  pose proof (int_to_bytes_length W x) as Lx.
  pose proof (int_to_bytes_length W y) as Ly.
  rewrite <- (DERFacts.int_to_bytes_left_zero_pad W x Hx).
  rewrite <- (DERFacts.int_to_bytes_left_zero_pad W y Hy).
  assert (Hfst : firstn W (skipn 1 (x04 :: int_to_bytes W x
                                         ++ int_to_bytes W y)%list)
                 = int_to_bytes W x).
  { cbn [skipn]. rewrite <- Lx at 1. apply DERRead.firstn_exact. }
  assert (Hsnd : skipn (1 + W) (x04 :: int_to_bytes W x
                                  ++ int_to_bytes W y)%list
                 = int_to_bytes W y).
  { cbn [Nat.add skipn]. rewrite <- Lx at 1. apply DERRead.skipn_exact. }
  rewrite Hfst, Hsnd.
  repeat split.
  - cbn [List.length]. rewrite length_app. lia.
  - apply int_from_to_bytes, Hx.
  - apply int_from_to_bytes, Hy.
Qed.

(** C4.  For a certificate with an Ed25519 key the raw key bytes are the 32
    octets of the key itself, and for one with an Ed448 key its 57 octets,
    with nothing around them. *)
Theorem ed_raw_key_is_native_encoding (cert_der : bytes)
    (cert : Certificate) (pub : PublicKey) (key : bytes) :
  load_der_x509_certificate cert_der = Ok cert ->
  public_key cert = Ok pub ->
  well_formed pub ->
  pub = Ed25519Key key \/ pub = Ed448Key key ->
  exists spki ktype,
    export_raw_public_key cert_der = Ok (key, spki, ktype)
    /\ List.length key
       = (if isinstance pub Ed25519PublicKey then 32 else 57)%nat.
Proof.
  intros Hload Hkey Hwf Hpub.
  rewrite (export_of_key _ _ _ Hload Hkey).
  destruct Hpub as [-> | ->]; simpl in *; eauto.
Qed.

(** C5, as amended.  The label returned with the raw key bytes is
    "RSA (PKCS#1 DER)" for RSA, "EC {curve-name} (X9.63 uncompressed)" for
    elliptic-curve keys, the name of the class of the key object followed
    by " (raw)" for Ed25519 and Ed448, that is "Ed25519PublicKey (raw)" and
    "Ed448PublicKey (raw)", and "Unknown type → SPKI fallback" otherwise.
    It is the label of the specification's table exactly when the key is
    neither Ed25519 nor Ed448. *)
Theorem key_type_label_of_export (cert_der raw spki : bytes)
    (ktype : string) :
  export_raw_public_key cert_der = Ok (raw, spki, ktype) ->
  exists cert pub,
    load_der_x509_certificate cert_der = Ok cert
    /\ public_key cert = Ok pub
    /\ ktype =
       match pub with
       | RSAKey _ _ => "RSA (PKCS#1 DER)"
       | ECKey c _ _ => "EC " ++ name c ++ " (X9.63 uncompressed)"
       | Ed25519Key _ | Ed448Key _ => class_name pub ++ " (raw)"
       | _ => "Unknown type → SPKI fallback"
       end
    /\ (ktype = Spec.key_type_label pub
        <-> isinstance pub Ed25519PublicKey = false
            /\ isinstance pub Ed448PublicKey = false).
Proof.
  intros Hexp.
  destruct (export_inversion _ _ _ _ Hexp)
    as (cert & pub & Hload & Hkey & _ & _ & ->).
  exists cert, pub.
  split; [exact Hload|]. split; [exact Hkey|]. split.
  - destruct pub; reflexivity.
  - split.
    + intros H. destruct pub; try (split; reflexivity); discriminate H.
    + intros [H1 H2]. destruct pub; try reflexivity; discriminate.
Qed.

(** C6, as amended.  For a certificate whose key the library loads as an
    object of none of the recognized families, the raw key bytes are the
    whole SubjectPublicKeyInfo in DER, the same octets as the SPKI bytes
    returned with them: a strict reader finds in them the algorithm
    identifier followed by the bit string holding the key.  The label is
    "Unknown type → SPKI fallback".  When the library cannot load the key,
    its exception is raised and nothing falls back. *)
Theorem unknown_key_falls_back_when_loaded (cert_der : bytes)
    (cert : Certificate) :
  load_der_x509_certificate cert_der = Ok cert ->
  match public_key cert with
  | Ok pub =>
      Spec.recognized pub = false ->
      exists raw,
        export_raw_public_key cert_der
        = Ok (raw, raw, "Unknown type → SPKI fallback")
        /\ public_bytes pub Encoding.DER PublicFormat.SubjectPublicKeyInfo
           = Ok raw
        /\ (Z.of_nat (List.length raw) < DER.max_length ->
            exists alg,
              DER.tlv DER.tag_SEQUENCE alg = algorithm_identifier pub
              /\ Spec.read_subject_public_key_info raw
                 = Some (alg, subject_public_key pub))
  | Raise e => export_raw_public_key cert_der = Raise e
  end.
Proof.
  intros Hload.
  destruct (public_key cert) as [pub|e] eqn:Hkey.
  - intros Hun. exists (subject_public_key_info pub).
    split; [|split].
    + rewrite (export_of_key _ _ _ Hload Hkey).
      destruct pub; try discriminate Hun; reflexivity.
    + reflexivity.
    + intros Hlen.
      destruct (SPKIRead.algorithm_identifier_is_sequence pub) as [alg Halg].
      exists alg. split; [symmetry; exact Halg|].
      apply SPKIRead.read_written_subject_public_key_info; assumption.
  - apply (export_key_failure _ _ _ Hload Hkey).
Qed.

(** C7.  When connecting, the TLS handshake, parsing the certificate or
    extracting its key fails, the process exits with code 1, nothing is
    written to the output, and the error stream receives "Error: " followed
    by the message of the exception and a newline, which is one line when
    the message has no line break; when all four steps succeed the process
    exits with code 0. *)
Theorem exit_code_and_error_line (args : Namespace) (o : option exn) :
  Spec.outcome args o ->
  match o with
  | Some e =>
      exit_code (run args) = 1
      /\ stdout (run args) = ""
      /\ stderr (run args) = "Error: " ++ str e ++ nl
      /\ (single_line (str e) = true ->
          splitlines (stderr (run args)) = ["Error: " ++ str e])
  | None => exit_code (run args) = 0 /\ stderr (run args) = ""
  end.
Proof.
  intros [e Hfail | der cert pub Hget Hload Hkey].
  - rewrite (run_failure args e (failure_raises _ _ Hfail)).
    repeat split. intros Hline. cbn [stderr].
    change ("Error: " ++ str e ++ nl) with (("Error: " ++ str e) ++ nl).
    apply splitlines_one_line. exact Hline.
  - rewrite (run_success args _ _ _
               (fetch_and_export_of_steps _ _ _ Hget
                  (export_of_key _ _ _ Hload Hkey))).
    split; reflexivity.
Qed.

(** C8.  On success the output is the line
    "Key format (raw export): <label>" and the line
    "PIN (RAW key)  SHA256 Base64: <pin>   <-- use this KEY"; an empty line,
    the warning header and the Base64 of the raw key bytes follow, once,
    exactly when [--print-key] is among the options. *)
Theorem stdout_of_successful_run (srv : string) (opts : list option_arg)
    (raw spki : bytes) (ktype : string) :
  fetch_and_export (parse_args srv opts) = Ok (raw, spki, ktype) ->
  let pin_lines :=
    "Key format (raw export): " ++ ktype ++ nl
    ++ "PIN (RAW key)  SHA256 Base64: " ++ sha256_b64 raw
    ++ "   <-- use this KEY" ++ nl in
  let key_lines :=
    nl ++ "Raw public key (Base64) — sensitive, do not log in prod:" ++ nl
    ++ Base64.b64encode raw ++ nl in
  (In OptPrintKey opts ->
   stdout (main srv opts) = pin_lines ++ key_lines)
  /\ (~ In OptPrintKey opts -> stdout (main srv opts) = pin_lines).
Proof.
  intros Hrun pin_lines key_lines. unfold main.
  rewrite (run_success _ _ _ _ Hrun). cbn [stdout].
  pose proof (print_key_parse_args srv opts) as Hflag.
  subst pin_lines key_lines. unfold sha256_b64.
  destruct (print_key (parse_args srv opts)).
  - split; [intros _ | intros Hn; exfalso; apply Hn, Hflag; reflexivity].
    repeat (rewrite !append_assoc; cbn [append]). reflexivity.
  - split; [intros Hin; apply Hflag in Hin; discriminate | intros _].
    repeat (rewrite !append_assoc; cbn [append]).
    rewrite ?append_nil_r. reflexivity.
Qed.

(** C9.  Certificate validation is on unless [--insecure] is given.
    Without the option the handshake checks the chain against the
    platform's trust store and the host name, and fetching fails with a
    verification error when either check fails; with it, the server's
    certificate is returned whatever its trust.  The option is false by
    default. *)
Theorem validation_unless_insecure (srv : string) (opts : list option_arg)
    (sock : Ssl.socket) :
  let args := parse_args srv opts in
  create_connection (server args) (port args) (timeout args) = Ok sock ->
  Ssl.handshake_failure sock = None ->
  let fetched :=
    get_leaf_cert_der (server args) (port args) (timeout args)
      (insecure args) in
  insecure (parse_args srv []) = false
  /\ (insecure args = true <-> In OptInsecure opts)
  /\ (~ In OptInsecure opts ->
      (Ssl.chains_to_platform_root sock = true
       /\ Ssl.valid_for_hostname sock srv = true
       /\ fetched = Ok (Ssl.peer_certificate sock))
      \/ ((Ssl.chains_to_platform_root sock = false
           \/ Ssl.valid_for_hostname sock srv = false)
          /\ exists e,
               fetched = Raise e
               /\ exn_class e = "SSLCertVerificationError"))
  /\ (In OptInsecure opts -> fetched = Ok (Ssl.peer_certificate sock)).
Proof.
  intros args Hconn Hhs fetched.
  pose proof (insecure_parse_args srv opts) as Hflag. fold args in Hflag.
  assert (Hsrv : server args = srv) by apply server_parse_args.
  split; [reflexivity|]. split; [exact Hflag|].
  subst fetched. unfold get_leaf_cert_der. rewrite Hconn. cbn [bind].
  rewrite Hsrv. unfold Ssl.wrap_socket. rewrite Hhs.
  split.
  - intros Hoff.
    destruct (insecure args) eqn:Hi;
      [exfalso; apply Hoff, Hflag; reflexivity|].
    cbn. unfold Ssl.chain_ok. cbn.
    destruct (Ssl.chains_to_platform_root sock),
             (Ssl.valid_for_hostname sock srv); cbn; eauto 10.
  - intros Hon. apply Hflag in Hon. rewrite Hon. reflexivity.
Qed.

(** C10.  The SPKI bytes returned are the SubjectPublicKeyInfo of the key
    whichever branch produced the raw key bytes, and for a key of none of
    the recognized families the raw key bytes are these same octets. *)
Theorem spki_bytes_same_in_every_branch (cert_der raw spki : bytes)
    (ktype : string) :
  export_raw_public_key cert_der = Ok (raw, spki, ktype) ->
  exists cert pub,
    load_der_x509_certificate cert_der = Ok cert
    /\ public_key cert = Ok pub
    /\ public_bytes pub Encoding.DER PublicFormat.SubjectPublicKeyInfo
       = Ok spki
    /\ (Spec.recognized pub = false -> raw = spki).
Proof.
  intros Hexp.
  destruct (export_inversion _ _ _ _ Hexp)
    as (cert & pub & Hload & Hkey & -> & -> & _).
  exists cert, pub. repeat split; try assumption.
  intros Hun. destruct pub; try discriminate Hun; reflexivity.
Qed.

End Claims.

(** * Further properties of the script *)

(** ** Text and Base64, continued *)

Module TextFacts.

Lemma list_ascii_of_append (a b : string) :
  list_ascii_of_string (a ++ b)
  = (list_ascii_of_string a ++ list_ascii_of_string b)%list.
Proof.
  induction a as [|c a IH]; simpl; [reflexivity | now rewrite IH].
Qed.

Lemma list_ascii_of_string_inj (a b : string) :
  list_ascii_of_string a = list_ascii_of_string b -> a = b.
Proof.
  intros H.
  rewrite <- (string_of_list_ascii_of_string a),
          <- (string_of_list_ascii_of_string b), H.
  reflexivity.
Qed.

(** A common ending can be cut off both sides of an equation. *)
Lemma append_inv_tail (a b c : string) :
  (a ++ c = b ++ c)%string -> a = b.
Proof.
  intros H. apply list_ascii_of_string_inj.
  apply (f_equal list_ascii_of_string) in H.
  rewrite !list_ascii_of_append in H.
  apply app_inv_tail in H. exact H.
Qed.

Lemma string_of_chars_app (l r : list ascii) :
  string_of_chars (l ++ r) = (string_of_chars l ++ string_of_chars r)%string.
Proof.
  induction l as [|c l IH]; simpl; [reflexivity | now rewrite IH].
Qed.

Lemma string_of_chars_length (l : list ascii) :
  String.length (string_of_chars l) = List.length l.
Proof.
  induction l as [|c l IH]; simpl; [reflexivity | now rewrite IH].
Qed.

End TextFacts.

Module Base64Shape.

Import Base64 Base64Facts.

Lemma char_of_sextet_in_alphabet (n : Z) :
  0 <= n < 64 -> in_alphabet (char_of_sextet n) = true.
Proof.
  intros Hn.
  assert (exists k, (k < 64)%nat /\ n = Z.of_nat k) as (k & Hk & ->)
    by (exists (Z.to_nat n); lia).
  clear Hn. do 64 (destruct k as [|k]; [reflexivity|]). lia.
Qed.

(** Data of 3n + 2 octets encodes to 4n + 3 characters of the alphabet and
    one [=]. *)
Lemma encode_chars_two_left (n : nat) (data : bytes) :
  List.length data = (3 * n + 2)%nat ->
  exists body,
    encode_chars data = (body ++ [pad])%list
    /\ List.length body = (4 * n + 3)%nat
    /\ forallb in_alphabet body = true.
Proof.
  revert data. induction n as [|n IH]; intros data Hlen.
  - destruct data as [|a [|b [|c rest]]]; try discriminate Hlen.
    pose proof (byte_to_Z_range a) as Ha.
    pose proof (byte_to_Z_range b) as Hb.
    eexists [_; _; _]. split; [reflexivity|]. split; [reflexivity|].
    cbn [forallb].
    rewrite !char_of_sextet_in_alphabet by (Z.div_mod_to_equations; lia).
    reflexivity.
  - destruct data as [|a [|b [|c rest]]]; try (simpl in Hlen; lia).
    destruct (IH rest ltac:(simpl in Hlen; lia)) as (body & Henc & Hl & Hall).
    pose proof (byte_to_Z_range a) as Ha.
    pose proof (byte_to_Z_range b) as Hb.
    pose proof (byte_to_Z_range c) as Hc.
    cbn [encode_chars]. rewrite Henc.
    eexists (_ :: _ :: _ :: _ :: body). split; [reflexivity|].
    split; [simpl; lia|].
    cbn [forallb]. rewrite Hall.
    rewrite !char_of_sextet_in_alphabet by (Z.div_mod_to_equations; lia).
    reflexivity.
Qed.

Lemma b64encode_inj (a b : bytes) : b64encode a = b64encode b -> a = b.
Proof.
  intros H. apply (f_equal b64decode) in H.
  rewrite !b64decode_b64encode in H. congruence.
Qed.

End Base64Shape.

Section More.

Import Py Crypto PinExtract Dispatch ExportFacts RunFacts ArgFacts.
Local Open Scope string_scope.

Context {platform : Platform}.

(** X1.  [export_raw_public_key] raises exactly what the certificate parser
    or the key loader raises: whichever branch of the dispatch is taken, the
    encoding and format it asks [public_bytes] for are ones the key
    supports. *)
Theorem export_raises_only_parser_errors (cert_der : bytes) (e : exn) :
  export_raw_public_key cert_der = Raise e
  <-> load_der_x509_certificate cert_der = Raise e
      \/ exists cert,
           load_der_x509_certificate cert_der = Ok cert
           /\ public_key cert = Raise e.
Proof.
  split.
  - intros Hexp.
    destruct (load_der_x509_certificate cert_der) as [cert|e'] eqn:Hload.
    + destruct (public_key cert) as [pub|e''] eqn:Hkey.
      * rewrite (export_of_key _ _ _ Hload Hkey) in Hexp. discriminate.
      * rewrite (export_key_failure _ _ _ Hload Hkey) in Hexp.
        right. exists cert. split; [reflexivity | congruence].
    + rewrite (export_parse_failure _ _ Hload) in Hexp. left. congruence.
  - intros [Hload | (cert & Hload & Hkey)].
    + apply export_parse_failure, Hload.
    + apply (export_key_failure _ _ _ Hload Hkey).
Qed.

(** X2.  The SPKI bytes returned always end with the raw key bytes: they are
    a header followed by the raw key, and the header is empty exactly for a
    key of none of the recognized families.  So the raw key bytes differ from
    the SPKI bytes for every RSA, elliptic-curve, Ed25519 and Ed448 key. *)
Theorem spki_is_header_then_raw_key (cert_der raw spki : bytes)
    (ktype : string) :
  export_raw_public_key cert_der = Ok (raw, spki, ktype) ->
  exists cert pub header,
    load_der_x509_certificate cert_der = Ok cert
    /\ public_key cert = Ok pub
    /\ spki = (header ++ raw)%list
    /\ (header = [] <-> Spec.recognized pub = false).
Proof.
  intros Hexp.
  destruct (export_inversion _ _ _ _ Hexp)
    as (cert & pub & Hload & Hkey & -> & -> & _).
  exists cert, pub.
  assert (Hwrap : forall alg key,
    DER.sequence [alg; DER.bit_string key]
    = ((DER.tag_SEQUENCE
          :: DER.length_octets
               (Z.of_nat (List.length (alg ++ DER.bit_string key ++ [])))
          ++ alg
          ++ DER.tag_BIT_STRING
          :: DER.length_octets (Z.of_nat (List.length (x00 :: key)))
          ++ [x00]) ++ key)%list).
  { intros alg key. unfold DER.sequence, DER.bit_string, DER.tlv.
    cbn [List.concat]. rewrite app_nil_r.
    cbn [app]. f_equal. rewrite <- !app_assoc. cbn [app].
    f_equal. f_equal. f_equal. rewrite <- app_assoc. reflexivity. }
  destruct pub;
    try (exists []; split; [exact Hload|]; split; [exact Hkey|];
         split; [reflexivity | split; reflexivity]);
    (eexists; split; [exact Hload|]; split; [exact Hkey|];
     split; [apply Hwrap|]; split; intros H; discriminate H).
Qed.

(** X3.  The label tells which rule fired: two certificates that get the
    same label were encoded by the same rule, and for elliptic-curve keys on
    curves of the same name. *)
Theorem same_label_same_rule (der1 der2 raw1 raw2 spki1 spki2 : bytes)
    (ktype : string) :
  export_raw_public_key der1 = Ok (raw1, spki1, ktype) ->
  export_raw_public_key der2 = Ok (raw2, spki2, ktype) ->
  exists cert1 pub1 cert2 pub2,
    load_der_x509_certificate der1 = Ok cert1
    /\ public_key cert1 = Ok pub1
    /\ load_der_x509_certificate der2 = Ok cert2
    /\ public_key cert2 = Ok pub2
    /\ rule_of pub1 = rule_of pub2.
Proof.
  intros H1 H2.
  destruct (export_inversion _ _ _ _ H1)
    as (cert1 & pub1 & Hl1 & Hk1 & _ & _ & E1).
  destruct (export_inversion _ _ _ _ H2)
    as (cert2 & pub2 & Hl2 & Hk2 & _ & _ & E2).
  exists cert1, pub1, cert2, pub2. repeat split; try assumption.
  rewrite E1 in E2. clear - E2.
  destruct pub1, pub2; try reflexivity; try discriminate E2.
  cbn [label_of rule_of] in *. f_equal.
  injection E2 as E2.
  apply (TextFacts.append_inv_tail _ _ _ E2).
Qed.

(** X4.  Whatever the data, the pin is 44 characters: 43 of the Base64
    alphabet and a final [=]. *)
Theorem pin_is_44_characters (data : bytes) :
  exists body,
    sha256_b64 data = string_of_chars body ++ "="
    /\ List.length body = 43%nat
    /\ forallb Base64.in_alphabet body = true
    /\ String.length (sha256_b64 data) = 44%nat.
Proof.
  unfold sha256_b64, Base64.b64encode.
  destruct (Base64Shape.encode_chars_two_left 10 (Hashlib.sha256 data))
    as (body & Henc & Hlen & Hall).
  { rewrite sha256_length. reflexivity. }
  exists body. rewrite Henc, TextFacts.string_of_chars_app.
  repeat split; try assumption.
  rewrite <- TextFacts.string_of_chars_app,
          TextFacts.string_of_chars_length, length_app, Hlen.
  reflexivity.
Qed.

(** X5.  The pin carries the whole digest: two inputs have the same pin
    exactly when they have the same SHA-256 digest. *)
Theorem same_pin_iff_same_digest (a b : bytes) :
  sha256_b64 a = sha256_b64 b <-> Hashlib.sha256 a = Hashlib.sha256 b.
Proof.
  unfold sha256_b64. split.
  - apply Base64Shape.b64encode_inj.
  - intros H. rewrite H. reflexivity.
Qed.

(** X6.  Without [insecure], a certificate is returned only from a server
    that was reached, completed the handshake, and whose certificate chains
    to the platform's trust store and is valid for the host name that was
    connected to; the bytes returned are that server's certificate. *)
Theorem verified_fetch_is_validated (host : string) (port : Z)
    (timeout : pyfloat) (cert_der : bytes) :
  get_leaf_cert_der host port timeout false = Ok cert_der ->
  exists sock,
    create_connection host port timeout = Ok sock
    /\ Ssl.handshake_failure sock = None
    /\ Ssl.chains_to_platform_root sock = true
    /\ Ssl.valid_for_hostname sock host = true
    /\ cert_der = Ssl.peer_certificate sock.
Proof.
  unfold get_leaf_cert_der. intros H.
  destruct (create_connection host port timeout) as [sock|e]; [|discriminate].
  exists sock. cbn [bind] in H. unfold Ssl.wrap_socket in H.
  destruct (Ssl.handshake_failure sock); [discriminate|].
  cbn in H. unfold Ssl.chain_ok in H. cbn in H.
  destruct (Ssl.chains_to_platform_root sock); [|discriminate].
  destruct (Ssl.valid_for_hostname sock host); [|discriminate].
  cbn in H. injection H as <-. repeat split.
Qed.

(** X7.  Adding [--insecure] to an invocation that succeeds changes nothing:
    the same lines are printed and the exit code is 0. *)
Theorem insecure_keeps_successful_run (srv : string)
    (opts : list option_arg) :
  exit_code (main srv opts) = 0 ->
  main srv (opts ++ [OptInsecure]) = main srv opts.
Proof.
  unfold main, parse_args. rewrite fold_left_app. cbn [fold_left store].
  set (args := fold_left store opts (defaults srv)).
  intros Hexit. unfold run in *.
  assert (Hfetch :
    fetch_and_export
      {| server := server args; port := port args; timeout := timeout args;
         insecure := true; print_key := print_key args |}
    = fetch_and_export args).
  { unfold fetch_and_export in *. cbn [server port timeout insecure].
    destruct (insecure args) eqn:Hi; [reflexivity|].
    unfold get_leaf_cert_der in *.
    destruct (create_connection (server args) (port args) (timeout args))
      as [sock|e]; [|reflexivity].
    cbn [bind] in *. unfold Ssl.wrap_socket in *.
    destruct (Ssl.handshake_failure sock); [reflexivity|].
    cbn in Hexit |- *. unfold Ssl.chain_ok in *. cbn in Hexit |- *.
    destruct (Ssl.chains_to_platform_root sock); [|discriminate Hexit].
    destruct (Ssl.valid_for_hostname sock (server args));
      [reflexivity | discriminate Hexit]. }
  rewrite Hfetch. reflexivity.
Qed.

(** X8.  With [insecure], fetching raises only what connecting or the
    handshake itself raises: no verification error is ever added. *)
Theorem unverified_fetch_fails_only_on_connection (host : string) (port : Z)
    (timeout : pyfloat) (e : exn) :
  get_leaf_cert_der host port timeout true = Raise e ->
  create_connection host port timeout = Raise e
  \/ exists sock,
       create_connection host port timeout = Ok sock
       /\ Ssl.handshake_failure sock = Some e.
Proof.
  unfold get_leaf_cert_der. intros H.
  destruct (create_connection host port timeout) as [sock|e'] eqn:Hc.
  - right. exists sock. split; [reflexivity|].
    cbn [bind] in H. unfold Ssl.wrap_socket in H.
    destruct (Ssl.handshake_failure sock) as [e''|]; [|discriminate H].
    cbn in H. congruence.
  - left. cbn in H. congruence.
Qed.

(** X9.  With [--print-key], the output ends with the line holding the
    Base64 text of the raw key bytes, and that text decodes back to exactly
    those bytes. *)
Theorem printed_key_decodes_to_raw_key (args : Namespace)
    (raw spki : bytes) (ktype : string) :
  fetch_and_export args = Ok (raw, spki, ktype) ->
  print_key args = true ->
  exists before,
    stdout (run args) = before ++ Base64.b64encode raw ++ nl
    /\ Base64.b64decode (Base64.b64encode raw) = Some raw.
Proof.
  intros Hrun Hflag. unfold run. rewrite Hrun, Hflag. cbn [stdout].
  unfold print at 1. eexists. split; [reflexivity|].
  apply Base64Facts.b64decode_b64encode.
Qed.

(** X10.  The raw key bytes of an RSA certificate determine the key: two
    certificates with RSA keys get the same raw key bytes only if they have
    the same modulus and the same exponent. *)
Theorem rsa_raw_key_determines_key (der1 der2 : bytes)
    (cert1 cert2 : Certificate) (n1 e1 n2 e2 : Z)
    (raw spki1 spki2 : bytes) (ktype1 ktype2 : string) :
  load_der_x509_certificate der1 = Ok cert1 ->
  public_key cert1 = Ok (RSAKey n1 e1) ->
  well_formed (RSAKey n1 e1) ->
  load_der_x509_certificate der2 = Ok cert2 ->
  public_key cert2 = Ok (RSAKey n2 e2) ->
  well_formed (RSAKey n2 e2) ->
  export_raw_public_key der1 = Ok (raw, spki1, ktype1) ->
  export_raw_public_key der2 = Ok (raw, spki2, ktype2) ->
  n1 = n2 /\ e1 = e2.
Proof.
  intros Hl1 Hk1 [Hn1 He1] Hl2 Hk2 [Hn2 He2] Hx1 Hx2.
  rewrite (export_of_key _ _ _ Hl1 Hk1) in Hx1.
  rewrite (export_of_key _ _ _ Hl2 Hk2) in Hx2.
  injection Hx1 as Hr1 _. injection Hx2 as Hr2 _.
  cbn [raw_of] in Hr1, Hr2.
  pose proof (RSAFacts.read_written_rsa_public_key n1 e1 Hn1 He1) as R1.
  pose proof (RSAFacts.read_written_rsa_public_key n2 e2 Hn2 He2) as R2.
  rewrite Hr1 in R1. rewrite Hr2 in R2. rewrite R1 in R2.
  injection R2 as -> ->. split; reflexivity.
Qed.

(** X11.  The raw key bytes of an elliptic-curve certificate determine the
    point: on one curve, two certificates get the same raw key bytes only if
    their keys have the same coordinates. *)
Theorem ec_raw_key_determines_point (der1 der2 : bytes)
    (cert1 cert2 : Certificate) (c : Curve) (x1 y1 x2 y2 : Z)
    (raw spki1 spki2 : bytes) (ktype1 ktype2 : string) :
  load_der_x509_certificate der1 = Ok cert1 ->
  public_key cert1 = Ok (ECKey c x1 y1) ->
  well_formed (ECKey c x1 y1) ->
  load_der_x509_certificate der2 = Ok cert2 ->
  public_key cert2 = Ok (ECKey c x2 y2) ->
  well_formed (ECKey c x2 y2) ->
  export_raw_public_key der1 = Ok (raw, spki1, ktype1) ->
  export_raw_public_key der2 = Ok (raw, spki2, ktype2) ->
  x1 = x2 /\ y1 = y2.
Proof.
  intros Hl1 Hk1 [Hx1 Hy1] Hl2 Hk2 [Hx2 Hy2] He1 He2.
  rewrite (export_of_key _ _ _ Hl1 Hk1) in He1.
  rewrite (export_of_key _ _ _ Hl2 Hk2) in He2.
  injection He1 as Hr1 _. injection He2 as Hr2 _.
  cbn [raw_of] in Hr1, Hr2. rewrite <- Hr2 in Hr1. clear Hr2.
  unfold uncompressed_point in Hr1. injection Hr1 as Hr.
  set (W := field_width c) in *.
  assert (Hfst : int_to_bytes W x1 = int_to_bytes W x2).
  { rewrite <- (DERRead.firstn_exact (int_to_bytes W x1) (int_to_bytes W y1)).
    rewrite <- (DERRead.firstn_exact (int_to_bytes W x2) (int_to_bytes W y2)).
    rewrite !int_to_bytes_length, Hr. reflexivity. }
  assert (Hsnd : int_to_bytes W y1 = int_to_bytes W y2).
  { rewrite <- (DERRead.skipn_exact (int_to_bytes W x1) (int_to_bytes W y1)).
    rewrite <- (DERRead.skipn_exact (int_to_bytes W x2) (int_to_bytes W y2)).
    rewrite !int_to_bytes_length, Hr. reflexivity. }
  apply (f_equal int_from_bytes) in Hfst, Hsnd.
  rewrite !int_from_to_bytes in Hfst, Hsnd by assumption.
  split; assumption.
Qed.

(** X12.  For a certificate with an Ed25519 key, the SPKI bytes returned
    next to the raw key are the twelve octets
    [30 2a 30 05 06 03 2b 65 70 03 21 00] followed by the raw key, and the
    label is the one of the Ed25519 rule. *)
Theorem ed25519_spki_is_prefix_then_raw_key (cert_der : bytes)
    (cert : Certificate) (key : bytes) :
  load_der_x509_certificate cert_der = Ok cert ->
  public_key cert = Ok (Ed25519Key key) ->
  well_formed (Ed25519Key key) ->
  export_raw_public_key cert_der
  = Ok (key,
        ([x30; x2a; x30; x05; x06; x03; x2b; x65; x70; x03; x21; x00]
           ++ key)%list,
        "Ed25519PublicKey (raw)").
Proof.
  intros Hload Hkey Hlen. rewrite (export_of_key _ _ _ Hload Hkey).
  cbn [raw_of label_of well_formed] in *.
  do 33 (destruct key as [|? key]; try discriminate Hlen).
  reflexivity.
Qed.

(** X13.  Without [insecure], fetching raises what connecting or the
    handshake raises, or else a certificate verification error, and the latter
    only when the chain is not trusted or the certificate is not valid for the
    host name. *)
Theorem verified_fetch_failure_causes (host : string) (port : Z)
    (timeout : pyfloat) (e : exn) :
  get_leaf_cert_der host port timeout false = Raise e ->
  create_connection host port timeout = Raise e
  \/ exists sock,
       create_connection host port timeout = Ok sock
       /\ (Ssl.handshake_failure sock = Some e
           \/ (Ssl.handshake_failure sock = None
               /\ (Ssl.chains_to_platform_root sock = false
                   \/ Ssl.valid_for_hostname sock host = false)
               /\ exn_class e = "SSLCertVerificationError")).
Proof.
  unfold get_leaf_cert_der. intros H.
  destruct (create_connection host port timeout) as [sock|e'] eqn:Hc.
  - right. exists sock. split; [reflexivity|].
    cbn [bind] in H. unfold Ssl.wrap_socket in H.
    destruct (Ssl.handshake_failure sock) as [e''|].
    + left. cbn in H. congruence.
    + right. split; [reflexivity|].
      cbn in H. unfold Ssl.chain_ok in H. cbn in H.
      destruct (Ssl.chains_to_platform_root sock).
      * destruct (Ssl.valid_for_hostname sock host); cbn in H;
          [discriminate H|].
        injection H as <-. split; [right|]; reflexivity.
      * cbn in H. injection H as <-. split; [left|]; reflexivity.
  - left. cbn in H. congruence.
Qed.

End More.

(** ** The script at work *)

Module Examples.

Import Py Crypto PinExtract.
Local Open Scope string_scope.

(** The first and the last round constant, and the first word of the initial
    hash value, as FIPS 180-4 lists them. *)
Example round_constants :
  hd 0 Hashlib.K = 0x428a2f98 /\ last Hashlib.K 0 = 0xc67178f2
  /\ Hashlib.ha Hashlib.H0 = 0x6a09e667.
Proof. vm_compute. repeat split. Qed.

(** The digests of FIPS 180-4's sample messages, one and two blocks long. *)
Example sha256_abc :
  Base64.b64encode (Hashlib.sha256 (bytes_of_string "abc"))
  = "ungWv48Bz+pBQUDeXa4iI7ADYaOWF3qctBD/YfIAFa0=".
Proof. vm_compute. reflexivity. Qed.

Example sha256_two_blocks :
  Hashlib.sha256
    (bytes_of_string
       "abcdbcdecdefdefgefghfghighijhijkijkljklmklmnlmnomnopnopq")
  = int_to_bytes 32
      0x248d6a61d20638b8e5c026930c3e6039a33ce45964ff2167f6ecedd419db06c1.
Proof. vm_compute. reflexivity. Qed.

(** The SubjectPublicKeyInfo of an Ed25519 key is the twelve octets
    [30 2a 30 05 06 03 2b 65 70 03 21 00] followed by the key. *)
Example ed25519_spki (key : bytes) :
  List.length key = 32%nat ->
  subject_public_key_info (Ed25519Key key)
  = ([x30; x2a; x30; x05; x06; x03; x2b; x65; x70; x03; x21; x00]
       ++ key)%list.
Proof.
  intros Hlen.
  do 33 (destruct key as [|? key]; try discriminate Hlen).
  reflexivity.
Qed.

Example run_rsa_print_key :
  main (platform := Fixture.platform) "rsa.example" [OptPrintKey]
  = {| stdout :=
         "Key format (raw export): RSA (PKCS#1 DER)" ++ nl
         ++ "PIN (RAW key)  SHA256 Base64: v7Mr/sGXKHk1mjcpjEoWxXCigLqQzDDVErpp3m2unJk=   <-- use this KEY"
         ++ nl ++ nl
         ++ "Raw public key (Base64) — sensitive, do not log in prod:" ++ nl
         ++ "MAcCAgyhAgER" ++ nl;
       stderr := "";
       exit_code := 0 |}.
Proof. vm_compute. reflexivity. Qed.

(** The pin of the raw key is not the pin of the SubjectPublicKeyInfo. *)
Example raw_pin_is_not_spki_pin :
  exists raw spki ktype,
    export_raw_public_key (platform := Fixture.platform) [x01]
    = Ok (raw, spki, ktype)
    /\ sha256_b64 raw = "v7Mr/sGXKHk1mjcpjEoWxXCigLqQzDDVErpp3m2unJk="
    /\ sha256_b64 spki <> sha256_b64 raw.
Proof.
  do 3 eexists. split; [reflexivity|].
  split; [vm_compute; reflexivity | vm_compute; discriminate].
Qed.

Example run_self_signed :
  main (platform := Fixture.platform) "self-signed.example" []
  = {| stdout := "";
       stderr :=
         "Error: [SSL: CERTIFICATE_VERIFY_FAILED] certificate verify failed"
         ++ nl;
       exit_code := 1 |}.
Proof. vm_compute. reflexivity. Qed.

End Examples.

(** ** The statements at concrete inputs *)

Module Witness.

Import Py Crypto PinExtract.
Local Open Scope string_scope.

(** A certificate with an Ed25519 key: the label is the class name of the
    key object followed by " (raw)", not the label of the specification's
    table. *)
Lemma ed25519_label_is_class_name :
  exists raw spki,
    load_der_x509_certificate (Platform := Fixture.platform) [x03]
    = Ok Fixture.ed25519_key
    /\ public_key (Platform := Fixture.platform) Fixture.ed25519_key
       = Ok Fixture.ed25519_key
    /\ export_raw_public_key (platform := Fixture.platform) [x03]
       = Ok (raw, spki, "Ed25519PublicKey (raw)")
    /\ "Ed25519PublicKey (raw)"
       <> Spec.key_type_label Fixture.ed25519_key.
Proof.
  exists (repeat x01 32), (subject_public_key_info Fixture.ed25519_key).
  repeat split; try reflexivity. vm_compute. discriminate.
Qed.

Lemma pin_is_base64_of_sha256_of_raw_key_witness :
  let raw := repeat x01 32 in
  let pin := Base64.b64encode (Hashlib.sha256 raw) in
  (exists rest,
     stdout (run (platform := Fixture.platform)
               (parse_args "ed25519.example" []))
     = "Key format (raw export): " ++ "Ed25519PublicKey (raw)" ++ nl
       ++ "PIN (RAW key)  SHA256 Base64: " ++ pin ++ "   <-- use this KEY"
       ++ nl ++ rest)
  /\ List.length (Hashlib.sha256 raw) = 32%nat
  /\ Base64.b64decode pin = Some (Hashlib.sha256 raw).
Proof.
  apply (pin_is_base64_of_sha256_of_raw_key (platform := Fixture.platform)
           (parse_args "ed25519.example" []) [x03] (repeat x01 32)
           (subject_public_key_info Fixture.ed25519_key)
           "Ed25519PublicKey (raw)");
    reflexivity.
Defined.

Lemma rsa_raw_key_is_pkcs1_der_witness :
  exists raw spki ktype,
    export_raw_public_key (platform := Fixture.platform) [x01]
    = Ok (raw, spki, ktype)
    /\ raw = DER.sequence [DER.integer 3233; DER.integer 17]
    /\ Spec.read_rsa_public_key raw = Some (3233, 17).
Proof.
  apply (rsa_raw_key_is_pkcs1_der (platform := Fixture.platform)
           [x01] Fixture.rsa_key 3233 17);
    [reflexivity | reflexivity | repeat split; reflexivity].
Defined.

Lemma ec_raw_key_is_uncompressed_point_witness :
  exists raw spki ktype,
    export_raw_public_key (platform := Fixture.platform) [x02]
    = Ok (raw, spki, ktype)
    /\ List.length raw = 65%nat
    /\ firstn 1 raw = [x04]
    /\ firstn 32 (skipn 1 raw)
       = Spec.left_zero_pad 32
           (Spec.coordinate_octets
              0x6b17d1f2e12c4247f8bce6e563a440f277037d812deb33a0f4a13945d898c296)
    /\ skipn 33 raw
       = Spec.left_zero_pad 32
           (Spec.coordinate_octets
              0x4fe342e2fe1a7f9b8ee7eb4a7c0f9e162bce33576b315ececbb6406837bf51f5)
    /\ int_from_bytes (firstn 32 (skipn 1 raw))
       = 0x6b17d1f2e12c4247f8bce6e563a440f277037d812deb33a0f4a13945d898c296
    /\ int_from_bytes (skipn 33 raw)
       = 0x4fe342e2fe1a7f9b8ee7eb4a7c0f9e162bce33576b315ececbb6406837bf51f5.
Proof.
  apply (ec_raw_key_is_uncompressed_point (platform := Fixture.platform)
           [x02] Fixture.p256_key SECP256R1
           0x6b17d1f2e12c4247f8bce6e563a440f277037d812deb33a0f4a13945d898c296
           0x4fe342e2fe1a7f9b8ee7eb4a7c0f9e162bce33576b315ececbb6406837bf51f5);
    [reflexivity | reflexivity |].
  repeat split; (reflexivity || (intros H; discriminate H)).
Defined.

Lemma ed_raw_key_is_native_encoding_witness :
  exists spki ktype,
    export_raw_public_key (platform := Fixture.platform) [x04]
    = Ok (repeat x02 57, spki, ktype)
    /\ List.length (repeat x02 57) = 57%nat.
Proof.
  apply (ed_raw_key_is_native_encoding (platform := Fixture.platform)
           [x04] Fixture.ed448_key Fixture.ed448_key (repeat x02 57));
    [reflexivity | reflexivity | reflexivity | right; reflexivity].
Defined.

Lemma key_type_label_of_export_witness :
  exists cert pub,
    load_der_x509_certificate (Platform := Fixture.platform) [x03] = Ok cert
    /\ public_key cert = Ok pub
    /\ "Ed25519PublicKey (raw)" =
       match pub with
       | RSAKey _ _ => "RSA (PKCS#1 DER)"
       | ECKey c _ _ => "EC " ++ name c ++ " (X9.63 uncompressed)"
       | Ed25519Key _ | Ed448Key _ => class_name pub ++ " (raw)"
       | _ => "Unknown type → SPKI fallback"
       end
    /\ ("Ed25519PublicKey (raw)" = Spec.key_type_label pub
        <-> isinstance pub Ed25519PublicKey = false
            /\ isinstance pub Ed448PublicKey = false).
Proof.
  apply (key_type_label_of_export (platform := Fixture.platform)
           [x03] (repeat x01 32)
           (subject_public_key_info Fixture.ed25519_key)
           "Ed25519PublicKey (raw)").
  reflexivity.
Defined.

(** A certificate whose algorithm is none of the four families and which the
    library cannot load: nothing falls back, the exception of the key loader
    is raised and the run ends with exit code 1 and no pin. *)
Lemma unsupported_algorithm_raises_without_fallback :
  exists cert e,
    load_der_x509_certificate (Platform := Unsupported.platform) [x09]
    = Ok cert
    /\ ~ In (Unsupported.algorithm cert)
            [oid_rsaEncryption; oid_ecPublicKey; oid_Ed25519; oid_Ed448]
    /\ public_key (Platform := Unsupported.platform) cert = Raise e
    /\ exn_class e = "UnsupportedAlgorithm"
    /\ export_raw_public_key (platform := Unsupported.platform) [x09]
       = Raise e
    /\ (forall raw spki ktype,
          export_raw_public_key (platform := Unsupported.platform) [x09]
          <> Ok (raw, spki, ktype))
    /\ exit_code (main (platform := Unsupported.platform) "gost.example" [])
       = 1
    /\ stdout (main (platform := Unsupported.platform) "gost.example" [])
       = "".
Proof.
  eexists. eexists.
  split; [reflexivity|].
  split.
  { cbn. intros [H|[H|[H|[H|[]]]]]; discriminate H. }
  split; [reflexivity|].
  split; [reflexivity|].
  split; [reflexivity|].
  split; [intros raw spki ktype H; discriminate H|].
  split; reflexivity.
Qed.

Lemma unknown_key_falls_back_when_loaded_witness :
  exists raw alg,
    export_raw_public_key (platform := Unsupported.platform) [x05]
    = Ok (raw, raw, "Unknown type → SPKI fallback")
    /\ DER.tlv DER.tag_SEQUENCE alg = algorithm_identifier Fixture.x25519_key
    /\ Spec.read_subject_public_key_info raw = Some (alg, repeat x03 32).
Proof.
  destruct (unknown_key_falls_back_when_loaded
              (platform := Unsupported.platform) [x05]
              {| Unsupported.algorithm := oid_X25519;
                 Unsupported.loaded := Some Fixture.x25519_key |}
              eq_refl eq_refl)
    as (raw & Hexp & Hbytes & Hread).
  injection Hbytes as <-.
  destruct (Hread eq_refl) as (alg & Halg & Hr).
  exists (subject_public_key_info Fixture.x25519_key), alg.
  repeat split; assumption.
Defined.

Lemma exit_code_and_error_line_witness :
  let args := parse_args "down.example" [] in
  let e := Exception "ConnectionRefusedError"
             "[Errno 111] Connection refused" in
  exit_code (run (platform := Fixture.platform) args) = 1
  /\ stdout (run (platform := Fixture.platform) args) = ""
  /\ stderr (run (platform := Fixture.platform) args)
     = "Error: " ++ str e ++ nl
  /\ (single_line (str e) = true ->
      splitlines (stderr (run (platform := Fixture.platform) args))
      = ["Error: " ++ str e]).
Proof.
  intros args e.
  apply (exit_code_and_error_line (platform := Fixture.platform)
           args (Some e)).
  apply Spec.Failed, Spec.ConnectionError. reflexivity.
Defined.

Lemma stdout_of_successful_run_witness :
  let opts := [OptPort 8443; OptPrintKey] in
  let pin_lines :=
    "Key format (raw export): " ++ "RSA (PKCS#1 DER)" ++ nl
    ++ "PIN (RAW key)  SHA256 Base64: "
    ++ sha256_b64 (pkcs1_rsa_public_key 3233 17)
    ++ "   <-- use this KEY" ++ nl in
  let key_lines :=
    nl ++ "Raw public key (Base64) — sensitive, do not log in prod:" ++ nl
    ++ Base64.b64encode (pkcs1_rsa_public_key 3233 17) ++ nl in
  (In OptPrintKey opts ->
   stdout (main (platform := Fixture.platform) "rsa.example" opts)
   = pin_lines ++ key_lines)
  /\ (~ In OptPrintKey opts ->
      stdout (main (platform := Fixture.platform) "rsa.example" opts)
      = pin_lines).
Proof.
  apply (stdout_of_successful_run (platform := Fixture.platform)
           "rsa.example" [OptPort 8443; OptPrintKey]
           (pkcs1_rsa_public_key 3233 17)
           (subject_public_key_info Fixture.rsa_key) "RSA (PKCS#1 DER)").
  reflexivity.
Defined.

Lemma validation_unless_insecure_witness :
  let srv := "self-signed.example" in
  let sock := Fixture.server_with [x01] false in
  let args := parse_args srv [] in
  let fetched :=
    get_leaf_cert_der (platform := Fixture.platform) (server args)
      (port args) (timeout args) (insecure args) in
  insecure (parse_args srv []) = false
  /\ (insecure args = true <-> In OptInsecure [])
  /\ (~ In OptInsecure [] ->
      (Ssl.chains_to_platform_root sock = true
       /\ Ssl.valid_for_hostname sock srv = true
       /\ fetched = Ok (Ssl.peer_certificate sock))
      \/ ((Ssl.chains_to_platform_root sock = false
           \/ Ssl.valid_for_hostname sock srv = false)
          /\ exists e,
               fetched = Raise e
               /\ exn_class e = "SSLCertVerificationError"))
  /\ (In OptInsecure [] -> fetched = Ok (Ssl.peer_certificate sock)).
Proof.
  apply (validation_unless_insecure (platform := Fixture.platform)
           "self-signed.example" [] (Fixture.server_with [x01] false));
    reflexivity.
Defined.

Lemma spki_bytes_same_in_every_branch_witness :
  exists cert pub,
    load_der_x509_certificate (Platform := Fixture.platform) [x05] = Ok cert
    /\ public_key cert = Ok pub
    /\ public_bytes pub Encoding.DER PublicFormat.SubjectPublicKeyInfo
       = Ok (subject_public_key_info Fixture.x25519_key)
    /\ (Spec.recognized pub = false ->
        subject_public_key_info Fixture.x25519_key
        = subject_public_key_info Fixture.x25519_key).
Proof.
  apply (spki_bytes_same_in_every_branch (platform := Fixture.platform)
           [x05] (subject_public_key_info Fixture.x25519_key)
           (subject_public_key_info Fixture.x25519_key)
           "Unknown type → SPKI fallback").
  reflexivity.
Defined.

End Witness.

(** ** The further properties at concrete inputs *)

Module MoreWitness.

Import Py Crypto PinExtract Dispatch.
Local Open Scope string_scope.

Lemma spki_is_header_then_raw_key_witness :
  exists cert pub header,
    load_der_x509_certificate (Platform := Fixture.platform) [x01] = Ok cert
    /\ public_key cert = Ok pub
    /\ subject_public_key_info Fixture.rsa_key
       = (header ++ pkcs1_rsa_public_key 3233 17)%list
    /\ (header = [] <-> Spec.recognized pub = false).
Proof.
  apply (spki_is_header_then_raw_key (platform := Fixture.platform)
           [x01] (pkcs1_rsa_public_key 3233 17)
           (subject_public_key_info Fixture.rsa_key) "RSA (PKCS#1 DER)").
  reflexivity.
Defined.

Lemma same_label_same_rule_witness :
  exists cert1 pub1 cert2 pub2,
    load_der_x509_certificate (Platform := Fixture.platform) [x02] = Ok cert1
    /\ public_key cert1 = Ok pub1
    /\ load_der_x509_certificate (Platform := Fixture.platform) [x02]
       = Ok cert2
    /\ public_key cert2 = Ok pub2
    /\ rule_of pub1 = rule_of pub2.
Proof.
  apply (same_label_same_rule (platform := Fixture.platform)
           [x02] [x02]
           (raw_of Fixture.p256_key) (raw_of Fixture.p256_key)
           (subject_public_key_info Fixture.p256_key)
           (subject_public_key_info Fixture.p256_key)
           "EC secp256r1 (X9.63 uncompressed)");
    reflexivity.
Defined.

Lemma verified_fetch_is_validated_witness :
  exists sock,
    create_connection (Platform := Fixture.platform) "rsa.example" 443
      (Float 5 0) = Ok sock
    /\ Ssl.handshake_failure sock = None
    /\ Ssl.chains_to_platform_root sock = true
    /\ Ssl.valid_for_hostname sock "rsa.example" = true
    /\ [x01] = Ssl.peer_certificate sock.
Proof.
  apply (verified_fetch_is_validated (platform := Fixture.platform)
           "rsa.example" 443 (Float 5 0) [x01]).
  reflexivity.
Defined.

Lemma insecure_keeps_successful_run_witness :
  main (platform := Fixture.platform) "p256.example"
    ([OptPrintKey] ++ [OptInsecure])
  = main (platform := Fixture.platform) "p256.example" [OptPrintKey].
Proof.
  apply (insecure_keeps_successful_run (platform := Fixture.platform)
           "p256.example" [OptPrintKey]).
  reflexivity.
Defined.

Lemma unverified_fetch_fails_only_on_connection_witness :
  let e := Exception "ConnectionRefusedError"
             "[Errno 111] Connection refused" in
  create_connection (Platform := Fixture.platform) "down.example" 443
    (Float 5 0) = Raise e
  \/ exists sock,
       create_connection (Platform := Fixture.platform) "down.example" 443
         (Float 5 0) = Ok sock
       /\ Ssl.handshake_failure sock = Some e.
Proof.
  apply (unverified_fetch_fails_only_on_connection
           (platform := Fixture.platform) "down.example" 443 (Float 5 0)).
  reflexivity.
Defined.

Lemma printed_key_decodes_to_raw_key_witness :
  let raw := pkcs1_rsa_public_key 3233 17 in
  exists before,
    stdout (run (platform := Fixture.platform)
              (parse_args "rsa.example" [OptPrintKey]))
    = before ++ Base64.b64encode raw ++ nl
    /\ Base64.b64decode (Base64.b64encode raw) = Some raw.
Proof.
  apply (printed_key_decodes_to_raw_key (platform := Fixture.platform)
           (parse_args "rsa.example" [OptPrintKey])
           (pkcs1_rsa_public_key 3233 17)
           (subject_public_key_info Fixture.rsa_key) "RSA (PKCS#1 DER)");
    reflexivity.
Defined.

Lemma rsa_raw_key_determines_key_witness : 3233 = 3233 /\ 17 = 17.
Proof.
  apply (rsa_raw_key_determines_key (platform := Fixture.platform)
           [x01] [x01] Fixture.rsa_key Fixture.rsa_key 3233 17 3233 17
           (pkcs1_rsa_public_key 3233 17)
           (subject_public_key_info Fixture.rsa_key)
           (subject_public_key_info Fixture.rsa_key)
           "RSA (PKCS#1 DER)" "RSA (PKCS#1 DER)");
    try reflexivity; repeat split; reflexivity.
Defined.

Lemma ec_raw_key_determines_point_witness :
  0x6b17d1f2e12c4247f8bce6e563a440f277037d812deb33a0f4a13945d898c296
  = 0x6b17d1f2e12c4247f8bce6e563a440f277037d812deb33a0f4a13945d898c296
  /\ 0x4fe342e2fe1a7f9b8ee7eb4a7c0f9e162bce33576b315ececbb6406837bf51f5
     = 0x4fe342e2fe1a7f9b8ee7eb4a7c0f9e162bce33576b315ececbb6406837bf51f5.
Proof.
  apply (ec_raw_key_determines_point (platform := Fixture.platform)
           [x02] [x02] Fixture.p256_key Fixture.p256_key SECP256R1
           _ _ _ _
           (raw_of Fixture.p256_key)
           (subject_public_key_info Fixture.p256_key)
           (subject_public_key_info Fixture.p256_key)
           "EC secp256r1 (X9.63 uncompressed)"
           "EC secp256r1 (X9.63 uncompressed)");
    try reflexivity;
    repeat split; (reflexivity || (intros H; discriminate H)).
Defined.

Lemma ed25519_spki_is_prefix_then_raw_key_witness :
  export_raw_public_key (platform := Fixture.platform) [x03]
  = Ok (repeat x01 32,
        ([x30; x2a; x30; x05; x06; x03; x2b; x65; x70; x03; x21; x00]
           ++ repeat x01 32)%list,
        "Ed25519PublicKey (raw)").
Proof.
  apply (ed25519_spki_is_prefix_then_raw_key (platform := Fixture.platform)
           [x03] Fixture.ed25519_key (repeat x01 32));
    reflexivity.
Defined.

Lemma verified_fetch_failure_causes_witness :
  let e := Ssl.SSLCertVerificationError
             "[SSL: CERTIFICATE_VERIFY_FAILED] certificate verify failed" in
  create_connection (Platform := Fixture.platform) "self-signed.example" 443
    (Float 5 0) = Raise e
  \/ exists sock,
       create_connection (Platform := Fixture.platform)
         "self-signed.example" 443 (Float 5 0) = Ok sock
       /\ (Ssl.handshake_failure sock = Some e
           \/ (Ssl.handshake_failure sock = None
               /\ (Ssl.chains_to_platform_root sock = false
                   \/ Ssl.valid_for_hostname sock "self-signed.example"
                      = false)
               /\ exn_class e = "SSLCertVerificationError")).
Proof.
  apply (verified_fetch_failure_causes (platform := Fixture.platform)
           "self-signed.example" 443 (Float 5 0)).
  reflexivity.
Defined.

End MoreWitness.
